(** * openshift-vsts: the [oc] installer and runner, embedded in Rocq

    A shallow embedding of [src/oc-install.ts] (class [InstallHandler]),
    [src/oc-run.ts] and of the [ConfigMap] patch builder exercised by
    [test/config-map.test.ts].

    Conventions of the embedding.
    - A JavaScript string is a [string]: a sequence of 8-bit characters,
      so only code units below 256 are represented.
    - [null] and [undefined] results are [None]; a value of type
      [string | null] is an [option string].
    - The parsed [oc-utils.json] object is a [gmap string string]; the
      constants of [src/constants.ts] and the functions of the [path],
      [valid-url], [substituter] and [argv-split] packages are parameters.
    - Calls that touch the agent (file system, network, child processes,
      task variables) are nodes of a finite program tree ([prog]) that an
      interpreter runs against an arbitrary agent, recording every call.
    - [tl.debug] logging is not modelled. *)

From Stdlib Require Import Ascii String NArith Lia.
From stdpp Require Import base option list strings gmap.


(** ** JavaScript strings *)

Module JS.

(** Truthiness of a string: [!s] holds exactly for the empty string. *)
Definition is_empty (s : string) : bool :=
  match s with
  | EmptyString => true
  | String _ _ => false
  end.

(** Truthiness of [string | undefined]. *)
Definition truthy (o : option string) : bool :=
  match o with
  | Some s => negb (is_empty s)
  | None => false
  end.

(** A template literal [`${x}`] around a value that may be undefined. *)
Definition template (o : option string) : string :=
  match o with
  | Some s => s
  | None => "undefined"
  end.

Definition chars (s : string) : list ascii := list_ascii_of_string s.
Definition str (l : list ascii) : string := string_of_list_ascii l.

(** [s.startsWith(String c "")] *)
Definition startsWith (c : ascii) (s : string) : bool :=
  match s with
  | String a _ => Ascii.eqb a c
  | EmptyString => false
  end.

(** [s.substr(1)] *)
Definition substr1 (s : string) : string :=
  match s with
  | String _ s' => s'
  | EmptyString => EmptyString
  end.

(** [s.substr(0, n)] for an integer [n] that may be negative: a negative
    length yields the empty string. *)
Definition substr0 (n : Z) (s : string) : string :=
  str (take (Z.to_nat n) (chars s)).

(** [l.lastIndexOf(c)] on the characters of a string: the index of the
    last occurrence, [-1] when there is none. *)
Fixpoint lastIndexOf_from (c : ascii) (l : list ascii) (i : Z) (found : Z) : Z :=
  match l with
  | [] => found
  | a :: l' =>
      lastIndexOf_from c l' (i + 1) (if Ascii.eqb a c then i else found)
  end.

Definition lastIndexOf (c : ascii) (s : string) : Z :=
  lastIndexOf_from c (chars s) 0 (-1).

(** [s.split(String c "")]: never empty, one more piece than separators. *)
Fixpoint split_chars (c : ascii) (l : list ascii) : list (list ascii) :=
  match l with
  | [] => [[]]
  | a :: l' =>
      if Ascii.eqb a c then [] :: split_chars c l'
      else match split_chars c l' with
           | p :: ps => (a :: p) :: ps
           | [] => [[a]]
           end
  end.

Definition split (c : ascii) (s : string) : list string :=
  str <$> split_chars c (chars s).

(** [parts[parts.length - 1]] of a non-empty array. *)
Definition last_part (parts : list string) : string :=
  List.last parts "".

(** [s.replace(pat, '')] with a string pattern: the first occurrence of
    [pat] is removed; the empty pattern occurs at index 0. *)
Fixpoint strip_prefix (pat l : list ascii) : option (list ascii) :=
  match pat, l with
  | [], _ => Some l
  | _ :: _, [] => None
  | p :: pat', a :: l' => if Ascii.eqb p a then strip_prefix pat' l' else None
  end.

Fixpoint remove_first (pat l : list ascii) : list ascii :=
  match strip_prefix pat l with
  | Some rest => rest
  | None => match l with
            | [] => []
            | a :: l' => a :: remove_first pat l'
            end
  end.

Definition replace_empty (pat s : string) : string :=
  str (remove_first (chars pat) (chars s)).

(** [s.toLowerCase()] on code units below 256: the letters A-Z and the
    Latin-1 capitals (0xC0-0xDE but the multiplication sign 0xD7). *)
Definition lower_char (a : ascii) : ascii :=
  let n := N_of_ascii a in
  if ((65 <=? n) && (n <=? 90) ||
      (192 <=? n) && (n <=? 222) && negb (n =? 215))%N
  then ascii_of_N (n + 32) else a.

Fixpoint toLowerCase (s : string) : string :=
  match s with
  | EmptyString => EmptyString
  | String a s' => String (lower_char a) (toLowerCase s')
  end.

(** *** Regular expressions

    The fragment of the ECMAScript pattern language the sources use.  A
    matcher returns the remainders of the input after every way of
    matching, in the order backtracking tries them. *)

Inductive regex : Type :=
| RChar (c : ascii)        (* an escaped literal such as [\.], or [v] *)
| RDigit                   (* [\d], [[0-9]] *)
| RAny                     (* [.] : anything but a line terminator *)
| RSeq (r1 r2 : regex)
| RPlus (r : regex)        (* greedy [r+] *)
| RStar (r : regex)        (* greedy [r*] *)
| RLook (r : regex).       (* the lookahead [(?=r)] *)

Definition is_digit (a : ascii) : bool :=
  let n := N_of_ascii a in ((48 <=? n) && (n <=? 57))%N.

Definition is_line_terminator (a : ascii) : bool :=
  let n := N_of_ascii a in ((n =? 10) || (n =? 13))%N.

Definition one (p : ascii -> bool) (s : list ascii) : list (list ascii) :=
  match s with
  | a :: s' => if p a then [s'] else []
  | [] => []
  end.

(** Greedy repetition of [step].  An iteration that consumes nothing is
    discarded, as RepeatMatcher does once the minimum count is reached. *)
Fixpoint star (step : list ascii -> list (list ascii)) (fuel : nat)
    (s : list ascii) : list (list ascii) :=
  match fuel with
  | O => [s]
  | S fuel' =>
      flat_map (fun s' => if (length s' <? length s)%nat
                          then star step fuel' s' else [])
               (step s) ++ [s]
  end.

Fixpoint rmatch (r : regex) (s : list ascii) : list (list ascii) :=
  match r with
  | RChar c => one (fun a => Ascii.eqb a c) s
  | RDigit => one is_digit s
  | RAny => one (fun a => negb (is_line_terminator a)) s
  | RSeq r1 r2 => flat_map (rmatch r2) (rmatch r1 s)
  | RPlus r' =>
      flat_map (fun s' => star (rmatch r') (length s') s') (rmatch r' s)
  | RStar r' => star (rmatch r') (length s) s
  | RLook r' =>
      match rmatch r' s with
      | [] => []
      | _ :: _ => [s]
      end
  end.

(** [new RegExp(r).exec(s)[0]]: the leftmost match, [None] for [null]. *)
Fixpoint exec_chars (r : regex) (s : list ascii) : option (list ascii) :=
  match rmatch r s with
  | rest :: _ => Some (take (length s - length rest) s)
  | [] =>
      match s with
      | [] => None
      | _ :: s' => exec_chars r s'
      end
  end.

Definition exec (r : regex) (s : string) : option string :=
  str <$> exec_chars r (chars s).

(** [+s] for a string of decimal digits.  The result is only ever compared
    with the small integers 3 and 4, for which the rounding of a long digit
    string to a double makes no difference. *)
Definition digit_value (a : ascii) : N := (N_of_ascii a - 48)%N.

Definition to_number (s : string) : N :=
  fold_left (fun acc a => (10 * acc + digit_value a)%N) (chars s) 0%N.

End JS.

(** ** Calls on the build agent *)

(** How a call, a synchronous function or a promise ends. *)
Inductive outcome (A : Type) : Type :=
| Returned (a : A)
| Thrown (msg : string).
Arguments Returned {A} a.
Arguments Thrown {A} msg.

(** The fields of [IExecSyncResult] that [getOcVersion] reads. *)
Record IExecSyncResult : Type := {
  stdout : option string;
  stderr : option string
}.

(** The calls the sources make on their collaborators.  [ToolExec tool
    args] stands for [tl.tool(tool)], the [arg]/[argIf] calls that hand it
    [args] in this order, and [exec()]. *)
Inductive call : Type :=
| Which (tool : string) (check : bool)           (* tl.which *)
| ExecOcSync (ocPath args : string)              (* RunnerHandler.execOcSync *)
| ExistsSync (path : string)                     (* fs.existsSync *)
| MkdirP (path : string)                         (* tl.mkdirP *)
| FetchHead (url : option string)                (* fetch(url, {method: 'HEAD'}) *)
| Exist (path : string)                          (* tl.exist *)
| ToolExec (tool : string) (args : list string)
| UnzipArchive (archiveType archivePath downloadDir : string)
| ChmodSync (path mode : string)                 (* fs.chmodSync *)
| GetVariable (name : string)                    (* tl.getVariable *)
| SetVariable (name value : string).             (* tl.setVariable *)

(** What a call hands back when it does not throw.  For [FetchHead] it is
    [response.ok]; the exit code of [exec()] is never read. *)
Definition resp (c : call) : Type :=
  match c with
  | Which _ _ => string
  | ExecOcSync _ _ => option IExecSyncResult
  | ExistsSync _ => bool
  | MkdirP _ => unit
  | FetchHead _ => bool
  | Exist _ => bool
  | ToolExec _ _ => unit
  | UnzipArchive _ _ _ => unit
  | ChmodSync _ _ => unit
  | GetVariable _ => option string
  | SetVariable _ _ => unit
  end.

(** A program: it returns, throws (or rejects), or makes a call and goes
    on with what the call did. *)
Inductive prog (A : Type) : Type :=
| Ret (a : A)
| Throw (msg : string)
| Do (c : call) (k : outcome (resp c) -> prog A).
Arguments Ret {A} a.
Arguments Throw {A} msg.
Arguments Do {A} c k.

Fixpoint bind {A B : Type} (p : prog A) (f : A -> prog B) : prog B :=
  match p with
  | Ret a => f a
  | Throw msg => Throw msg
  | Do c k => Do c (fun r => bind (k r) f)
  end.

#[global] Instance prog_ret : MRet prog := fun A a => Ret a.
#[global] Instance prog_bind : MBind prog := fun A B f p => bind p f.

(** A call outside [try]: what it throws propagates. *)
Definition perform (c : call) : prog (resp c) :=
  Do c (fun r => match r with
                 | Returned v => Ret v
                 | Thrown msg => Throw msg
                 end).

(** A build agent answers every call from its current state. *)
Record agent : Type := {
  world : Type;
  answer : forall c : call, world -> outcome (resp c) * world
}.

(** Running a program on an agent: the calls made, in order, how the
    program ended, and the agent's final state. *)
Fixpoint run {A : Type} (ag : agent) (p : prog A) (w : world ag)
    : list call * outcome A * world ag :=
  match p with
  | Ret a => ([], Returned a, w)
  | Throw msg => ([], Thrown msg, w)
  | Do c k =>
      let '(r, w1) := answer ag c w in
      let '(tr, o, w2) := run ag (k r) w1 in
      (c :: tr, o, w2)
  end.

Definition calls {A : Type} (ag : agent) (p : prog A) (w : world ag) : list call :=
  (run ag p w).1.1.

Definition ending {A : Type} (ag : agent) (p : prog A) (w : world ag) : outcome A :=
  (run ag p w).1.2.

Definition is_FetchHead (c : call) : bool :=
  match c with FetchHead _ => true | _ => false end.

Definition is_ToolExec (c : call) : bool :=
  match c with ToolExec _ _ => true | _ => false end.

Definition is_ChmodSync (c : call) : bool :=
  match c with ChmodSync _ _ => true | _ => false end.

(** ** Parameters of the installer *)

(** The exports of [src/constants.ts] that [oc-install.ts] imports. *)
Record Constants : Type := {
  LINUX : string;
  MACOSX : string;
  WIN : string;
  OC_TAR_GZ : string;
  OC_ZIP : string;
  LATEST : string
}.

(** The functions of the [path] and [valid-url] packages the installer
    calls.  [isWebUri] is the truthiness of the package's result. *)
Record Libs : Type := {
  path_normalize : string -> string;
  path_join : string -> string -> string;
  path_extname : string -> string;
  isWebUri : string -> bool
}.

(** ** Version resolution: [InstallHandler.ocBundleURL] and friends *)

Module InstallHandler.
Import JS.

(** [new RegExp('\\d+(?=\\.)')] *)
Definition reMajor : regex :=
  RSeq (RPlus RDigit) (RLook (RChar ".")).

(** [new RegExp('\\d+\\.\\d+(?=\\.)*')] *)
Definition reBase : regex :=
  RSeq (RPlus RDigit)
    (RSeq (RChar ".")
       (RSeq (RPlus RDigit) (RStar (RLook (RChar "."))))).

(** [new RegExp('v[0-9]+.[0-9]+.[0-9]+')]: the dots are not escaped. *)
Definition reVersion : regex :=
  RSeq (RChar "v")
    (RSeq (RPlus RDigit)
       (RSeq RAny (RSeq (RPlus RDigit) (RSeq RAny (RPlus RDigit))))).

(** The first statement of [ocBundleURL] after the emptiness test: one
    leading [v] is dropped. *)
Definition strip_v (version : string) : string :=
  if startsWith "v" version then substr1 version else version.

(** [vMajor] as [ocBundleURL] computes it from the stripped version. *)
Definition vMajor (version : string) : option N :=
  to_number <$> exec reMajor version.

Section Resolver.
Context (K : Constants) (ocUtils : gmap string string).

(** [ocUtils.openshiftV3BaseUrl] and [ocUtils.openshiftV4BaseUrl] inside a
    template literal. *)
Definition openshiftV3BaseUrl : string :=
  template (ocUtils !! "openshiftV3BaseUrl").
Definition openshiftV4BaseUrl : string :=
  template (ocUtils !! "openshiftV4BaseUrl").

Definition getOcBundleByOS (osType : string) : option string :=
  if String.eqb osType "Linux" then Some (LINUX K +:+ "/" +:+ OC_TAR_GZ K)
  else if String.eqb osType "Darwin" then Some (MACOSX K +:+ "/" +:+ OC_TAR_GZ K)
  else if String.eqb osType "Windows_NT" then Some (WIN K +:+ "/" +:+ OC_ZIP K)
  else None.

Definition latestStable (osType : string) : option string :=
  let bundle := getOcBundleByOS osType in
  if negb (truthy bundle) then None
  else Some (openshiftV4BaseUrl +:+ "/" +:+ LATEST K
             +:+ "/" +:+ template bundle).

Definition ocBundleURL (version : string) (osType : string) (latest : bool)
    : option string :=
  if is_empty version then None
  else
    let version := strip_v version in
    match exec reMajor version with
    | None => None
    | Some major =>
        let vMajor := to_number major in
        let resolved :=
          if latest then
            match exec reBase version with
            | None => None
            | Some baseVersion =>
                if negb (truthy (ocUtils !! ("oc" +:+ baseVersion))) then None
                else ocUtils !! ("oc" +:+ baseVersion)
            end
          else Some version in
        match resolved with
        | None => None
        | Some version =>
            let base :=
              if (vMajor =? 3)%N
              then Some openshiftV3BaseUrl
              else if (vMajor =? 4)%N
              then Some openshiftV4BaseUrl
              else None in
            match base with
            | None => None
            | Some b =>
                let url := b +:+ "/" +:+ version +:+ "/" in
                let bundle := getOcBundleByOS osType in
                if negb (truthy bundle) then None
                else Some (url +:+ template bundle)
            end
        end
    end.


(** ** Download, extraction and installation *)

Context (L : Libs) (env : gmap string string).

(** The arguments handed to the [curl] runner. *)
Definition curlArgs (proxy archivePath url : string) : list string :=
  ["-s"] ++ (if negb (is_empty proxy) then ["-x"; proxy] else [])
         ++ ["-L"; "-o"; archivePath; url].

(** The archive type [downloadAndExtract] hands to [unzipArchive]. *)
Definition archiveTypeOf (archive : string) : string :=
  let archiveType := path_extname L archive in
  let expandDir := replace_empty archiveType archive in
  if String.eqb (path_extname L expandDir) ".tar" then ".tar.gz"
  else archiveType.

(** The name of the executable inside the archive. *)
Definition ocBinaryName (osType : string) : string :=
  if String.eqb osType "Windows_NT" then "oc.exe" else "oc".

Definition downloadAndExtract (url downloadDir osType proxy : string)
    : prog (option string) :=
  if is_empty url then Ret None
  else
    let downloadDir := path_normalize L downloadDir in
    dirExists ← perform (Exist downloadDir);
    if negb dirExists then Throw (downloadDir +:+ " does not exist.")
    else
      let parts := split "/" url in
      let archive := last_part parts in
      let archivePath := path_join L downloadDir archive in
      cached ← perform (Exist archivePath);
      _ ← (if negb cached
           then perform (ToolExec "curl" (curlArgs proxy archivePath url))
           else Ret tt);
      _ ← perform (UnzipArchive (archiveTypeOf archive) archivePath downloadDir);
      let ocBinary := path_join L downloadDir (ocBinaryName osType) in
      found ← perform (Exist ocBinary);
      if negb found then Ret None
      else
        _ ← perform (ChmodSync ocBinary "0755");
        Ret (Some ocBinary).

Definition getOcVersion (ocPath : string) : prog (option string) :=
  result ← perform (ExecOcSync ocPath "version --short=true --client=true");
  result ← (match result with
            | Some r =>
                if truthy (stderr r) then perform (ExecOcSync ocPath "version")
                else Ret result
            | None => perform (ExecOcSync ocPath "version")
            end);
  match result with
  | None => Ret None
  | Some r =>
      if negb (truthy (stdout r)) then Ret None
      else Ret (exec reVersion (template (stdout r)))
  end.

Definition getLocalOcPath (version : option string) : prog (option string) :=
  ocPath ← Do (Which "oc" true)
              (fun r => match r with
                        | Returned p => Ret (Some p)
                        | Thrown _ => Ret None
                        end);
  if truthy version && truthy ocPath then
    localOcVersion ← getOcVersion (template ocPath);
    if negb (truthy localOcVersion)
       || negb (String.eqb (toLowerCase (template localOcVersion))
                           (toLowerCase (template version)))
    then Ret None
    else Ret ocPath
  else Ret ocPath.

(** The download directory of [installOc]. *)
Definition downloadDirOf : string :=
  template (env !! "SYSTEM_DEFAULTWORKINGDIRECTORY") +:+ "/.download".

(** [installOc] makes sure the download directory is there. *)
Definition createDownloadDir : prog unit :=
  dirExists ← perform (ExistsSync downloadDirOf);
  if negb dirExists then perform (MkdirP downloadDirOf) else Ret tt.

(** [installOc] from the point where the URL is known. *)
Definition installFrom (url : option string) (downloadDir osType proxy : string)
    : prog string :=
  match url with
  | None => Throw "Unable to determine oc download URL."
  | Some url =>
      ocBinary ← downloadAndExtract url downloadDir osType proxy;
      match ocBinary with
      | None => Throw "Unable to download or extract oc binary."
      | Some ocBinary => Ret ocBinary
      end
  end.

(** [installOc] once a local [oc] has been ruled out. *)
Definition installRemote (downloadVersion osType proxy : string) : prog string :=
  match (if is_empty downloadVersion then latestStable osType
         else Some downloadVersion) with
  | None => Throw "Unable to determine latest oc download URL"
  | Some downloadVersion =>
      let downloadDir := downloadDirOf in
      _ ← createDownloadDir;
      url ← (if isWebUri L downloadVersion then Ret (Some downloadVersion)
             else
               let url := ocBundleURL downloadVersion osType false in
               ok ← perform (FetchHead url);
               if negb ok then Ret (ocBundleURL downloadVersion osType true)
               else Ret url);
      installFrom url downloadDir osType proxy
  end.

Definition installOc (downloadVersion osType : string) (useLocalOc : bool)
    (proxy : string) : prog string :=
  if useLocalOc then
    localOcPath ← getLocalOcPath (Some downloadVersion);
    if truthy localOcPath then Ret (template localOcPath)
    else installRemote downloadVersion osType proxy
  else installRemote downloadVersion osType proxy.

(** [addOcToPath]; the path may be [null]. *)
Definition addOcToPath (ocPath : option string) (osType : string) : prog unit :=
  match ocPath with
  | None => Throw "path cannot be null or empty"
  | Some ocPath =>
      if is_empty ocPath then Throw "path cannot be null or empty"
      else if String.eqb osType "Windows_NT" then
        let dir := substr0 (lastIndexOf "\" ocPath) ocPath in
        old ← perform (GetVariable "PATH");
        perform (SetVariable "PATH" (dir +:+ ";" +:+ template old))
      else
        let dir := substr0 (lastIndexOf "/" ocPath) ocPath in
        old ← perform (GetVariable "PATH");
        perform (SetVariable "PATH" (dir +:+ ":" +:+ template old))
  end.

End Resolver.
End InstallHandler.

(** ** Running [oc]: [src/oc-run.ts] *)

Module OcRun.
Section Run.
(** [substituter] and [argv-split], and the process environment. *)
Context (sub : string -> gmap string string -> string)
        (argv_split : string -> list string)
        (env : gmap string string).

Definition prepareOcArguments (argLine : string) : list string :=
  let interpolatedArgs := sub argLine env in
  argv_split interpolatedArgs.

Definition execOc (ocPath argLine : string) : prog unit :=
  _ ← perform (ToolExec ocPath (prepareOcArguments argLine));
  Ret tt.

End Run.
End OcRun.

(** ** The [ConfigMap] patch builder *)

Module ConfigMap.
Import JS.

Definition dquote : ascii := ascii_of_nat 34.
Definition quoted (s : string) : string :=
  String dquote s +:+ String dquote EmptyString.

Definition is_space (a : ascii) : bool :=
  let n := N_of_ascii a in ((n =? 32) || (n =? 9) || (n =? 10) || (n =? 13))%N.

(** Modelled from the spec: the tokenizer of [src/config-map.ts], which is
    not among the sources.  The properties line is cut at whitespace; a
    stretch between double quotes is kept in one token and the quotes are
    dropped. *)
Fixpoint tokens_from (l : list ascii) (inQuotes : bool)
    (cur : option (list ascii)) : list (list ascii) :=
  match l with
  | [] =>
      match cur with
      | Some t => [rev t]
      | None => []
      end
  | a :: l' =>
      if Ascii.eqb a dquote
      then tokens_from l' (negb inQuotes) (Some (default [] cur))
      else if is_space a && negb inQuotes
      then match cur with
           | Some t => rev t :: tokens_from l' false None
           | None => tokens_from l' false None
           end
      else tokens_from l' inQuotes (Some (a :: default [] cur))
  end.

Definition tokens (line : string) : list string :=
  str <$> tokens_from (chars line) false None.

(** Modelled from the spec: the [-key value] grouping of
    [src/config-map.ts]; the key loses its leading dash. *)
Fixpoint pairs (ts : list string) : list (string * string) :=
  match ts with
  | k :: v :: rest =>
      ((if startsWith "-" k then substr1 k else k), v) :: pairs rest
  | _ => []
  end.

Section Patch.
(** The [${NAME}] substitution against the environment. *)
Context (interpolate : string -> string).

(** Modelled from the spec: the [PatchSpec] that the constructor of
    [ConfigMap] (in [src/config-map.ts], not among the sources) derives
    from the properties line. *)
Definition patchSpec (properties : string) : list (string * string) :=
  (fun kv => (kv.1, interpolate kv.2)) <$> pairs (tokens properties).

Fixpoint join (sep : string) (l : list string) : string :=
  match l with
  | [] => EmptyString
  | [x] => x
  | x :: l' => x +:+ sep +:+ join sep l'
  end.

(** Modelled from the spec: the JSON-shaped payload, in the layout the
    tests of [test/config-map.test.ts] expect. *)
Definition payload (spec : list (string * string)) : string :=
  "{" +:+ quoted "data" +:+ ":{"
  +:+ join ", " ((fun kv => quoted kv.1 +:+ ": " +:+ quoted kv.2) <$> spec)
  +:+ "}}".

(** Modelled from the spec: [ConfigMap#patchCmd] of [src/config-map.ts],
    for a ConfigMap built from [name] and [properties]. *)
Definition patchCmd (name properties namespace : string) : string :=
  "patch configmap " +:+ name +:+ " -p '" +:+ payload (patchSpec properties)
  +:+ "'" +:+ (if is_empty namespace then "" else " -n " +:+ namespace).

End Patch.
End ConfigMap.

(** ** A simulated agent

    Stand-ins of the kind the test suite builds with its stubs: concrete
    constants, a small version table, POSIX-flavoured path functions and an
    in-memory agent. *)

Module Sim.
Import JS.

Definition constants : Constants := {|
  LINUX := "linux"; MACOSX := "macosx"; WIN := "windows";
  OC_TAR_GZ := "oc.tar.gz"; OC_ZIP := "oc.zip"; LATEST := "latest"
|}.

Definition ocUtils : gmap string string :=
  <["openshiftV3BaseUrl" := "https://mirror.example/v3/clients"]>
  (<["openshiftV4BaseUrl" := "https://mirror.example/v4/clients/oc"]>
  (<["oc3.11" := "3.11.154"]>
  (<["oc4.1" := "4.1.18"]>
  (<["oc3.9" := "4.0.0"]> ∅)))).

(** The text from the last dot on, when the dot is not the first
    character. *)
Fixpoint ext_chars (l : list ascii) (seen : bool) : list ascii :=
  match l with
  | [] => []
  | a :: l' =>
      match ext_chars l' true with
      | [] => if Ascii.eqb a "." && seen then a :: l' else []
      | e => e
      end
  end.

Definition libs : Libs := {|
  path_normalize := fun p => p;
  path_join := fun a b => a +:+ "/" +:+ b;
  path_extname := fun p => str (ext_chars (chars p) false);
  isWebUri := fun s => String.prefix "http://" s || String.prefix "https://" s
|}.

Definition env : gmap string string :=
  <["SYSTEM_DEFAULTWORKINGDIRECTORY" := "/work"]> ∅.

Record state : Type := {
  files : gset string;              (* paths that exist *)
  served : gset string;             (* URLs that answer a HEAD with 200 *)
  archive : list string;            (* file names inside every archive *)
  modes : gmap string string;       (* modes set by chmod *)
  vars : gmap string string;        (* task variables *)
  localOc : option string;          (* where [which] finds oc *)
  ocOutput : option IExecSyncResult (* what running oc prints *)
}.

Definition with_files (f : gset string) (s : state) : state :=
  {| files := f; served := served s; archive := archive s; modes := modes s;
     vars := vars s; localOc := localOc s; ocOutput := ocOutput s |}.

Fixpoint output_of (args : list string) : gset string :=
  match args with
  | flag :: rest =>
      match rest with
      | target :: _ => if String.eqb flag "-o" then {[ target ]} else output_of rest
      | [] => ∅
      end
  | [] => ∅
  end.

Definition respond (c : call) (s : state) : outcome (resp c) * state :=
  match c with
  | Which _ _ =>
      (match localOc s with
       | Some p => Returned p
       | None => Thrown "Unable to locate executable file"
       end, s)
  | ExecOcSync _ _ => (Returned (ocOutput s), s)
  | ExistsSync p => (Returned (bool_decide (p ∈ files s)), s)
  | MkdirP p => (Returned tt, with_files (files s ∪ {[ p ]}) s)
  | FetchHead (Some u) => (Returned (bool_decide (u ∈ served s)), s)
  | FetchHead None => (Thrown "Only absolute URLs are supported", s)
  | Exist p => (Returned (bool_decide (p ∈ files s)), s)
  | ToolExec _ args => (Returned tt, with_files (files s ∪ output_of args) s)
  | UnzipArchive _ _ dir =>
      (Returned tt,
       with_files (files s ∪ list_to_set ((fun n => dir +:+ "/" +:+ n) <$> archive s)) s)
  | ChmodSync p m =>
      (Returned tt,
       {| files := files s; served := served s; archive := archive s;
          modes := <[p := m]> (modes s); vars := vars s;
          localOc := localOc s; ocOutput := ocOutput s |})
  | GetVariable n => (Returned (vars s !! n), s)
  | SetVariable n v =>
      (Returned tt,
       {| files := files s; served := served s; archive := archive s;
          modes := modes s; vars := <[n := v]> (vars s);
          localOc := localOc s; ocOutput := ocOutput s |})
  end.

Definition sim : agent := {| world := state; answer := respond |}.

(** The same agent without a network: [curl] fails. *)
Definition respond_offline (c : call) (s : state) : outcome (resp c) * state :=
  match c as c' return outcome (resp c') * state with
  | ToolExec _ _ => (Thrown "curl: (6) Could not resolve host", s)
  | c' => respond c' s
  end.

Definition offline : agent := {| world := state; answer := respond_offline |}.

(** An agent with the download directory in place and nothing else. *)
Definition fresh (contents : list string) : state := {|
  files := {[ "/work/.download" ]};
  served := ∅;
  archive := contents;
  modes := ∅;
  vars := <["PATH" := "/usr/bin"]> ∅;
  localOc := None;
  ocOutput := None
|}.

End Sim.

(** ** Vocabulary of the statements *)

Module Spec.
Import JS InstallHandler.

(** A property of every call a program can make, on any agent. *)
Inductive all_calls (P : call -> Prop) {A : Type} : prog A -> Prop :=
| all_calls_Ret (a : A) : all_calls P (Ret a)
| all_calls_Throw (msg : string) : all_calls P (Throw msg)
| all_calls_Do (c : call) (k : outcome (resp c) -> prog A) :
    P c -> (forall r, all_calls P (k r)) -> all_calls P (Do c k).

(** A property of the calls made and of the end of every run of a
    program, on any agent. *)
Inductive ends {A : Type} : (list call -> outcome A -> Prop) -> prog A -> Prop :=
| ends_Ret (Q : list call -> outcome A -> Prop) (a : A) :
    Q [] (Returned a) -> ends Q (Ret a)
| ends_Throw (Q : list call -> outcome A -> Prop) (msg : string) :
    Q [] (Thrown msg) -> ends Q (Throw msg)
| ends_Do (Q : list call -> outcome A -> Prop) (c : call)
    (k : outcome (resp c) -> prog A) :
    (forall r, ends (fun tr o => Q (c :: tr) o) (k r)) -> ends Q (Do c k).

Definition no_probe (c : call) : Prop := is_FetchHead c = false.

(** The archive name, the archive path and the path of the executable as
    [downloadAndExtract] computes them. *)
Definition archiveOf (url : string) : string := last_part (split "/" url).

Definition archivePathOf (L : Libs) (url downloadDir : string) : string :=
  path_join L (path_normalize L downloadDir) (archiveOf url).

Definition ocBinaryPath (L : Libs) (downloadDir osType : string) : string :=
  path_join L (path_normalize L downloadDir) (ocBinaryName osType).


(** The path separator and the separator of PATH entries that
    [addOcToPath] uses for an OS identifier. *)
Definition pathSeparator (osType : string) : ascii :=
  if String.eqb osType "Windows_NT" then "\"%char else "/"%char.

Definition pathDelimiter (osType : string) : string :=
  if String.eqb osType "Windows_NT" then ";" else ":".

(** How many HEAD requests a run made. *)
Definition probe_count (tr : list call) : nat :=
  length (List.filter is_FetchHead tr).

Definition no_download (c : call) : Prop := is_ToolExec c = false.

(** A run of decimal digits. *)
Definition digits (l : list ascii) : Prop := Forall (fun a => is_digit a = true) l.

(** A non-empty run of decimal digits, as a string. *)
Definition number (s : string) : Prop := s <> "" /\ digits (chars s).

(** The next character, if there is one, is not a digit. *)
Definition not_digit_next (l : list ascii) : Prop :=
  match l with
  | [] => True
  | a :: _ => is_digit a = false
  end.

(** The pattern [\d+\.\d+], that is [reBase] without its repeated
    lookahead. *)
Definition reMajorMinor : regex :=
  RSeq (RPlus RDigit) (RSeq (RChar ".") (RPlus RDigit)).

End Spec.

(** * Properties *)

Import JS InstallHandler Spec.

(** ** Bundle lookup and version resolution *)

Lemma append_assoc (a b c : string) : (a +:+ b) +:+ c = a +:+ b +:+ c.
Proof.
  induction a as [|x a IH]; [reflexivity|].
  change (String x ((a +:+ b) +:+ c) = String x (a +:+ b +:+ c)).
  by rewrite IH.
Qed.

Section ResolverFacts.
Context (K : Constants) (ocUtils : gmap string string).

Lemma is_empty_false_app (a : string) (c : ascii) (b : string) :
  is_empty (a +:+ String c b) = false.
Proof. destruct a; reflexivity. Qed.

Lemma getOcBundleByOS_nonempty osType bundle :
  getOcBundleByOS K osType = Some bundle -> is_empty bundle = false.
Proof.
  unfold getOcBundleByOS.
  repeat case_match; intros [= <-]; apply is_empty_false_app.
Qed.

Lemma getOcBundleByOS_truthy osType bundle :
  getOcBundleByOS K osType = Some bundle ->
  truthy (getOcBundleByOS K osType) = true.
Proof.
  intros H. rewrite H. simpl. by rewrite (getOcBundleByOS_nonempty _ _ H).
Qed.

Lemma vMajor_nonempty version n :
  vMajor (strip_v version) = Some n -> is_empty version = false.
Proof. destruct version; [discriminate | reflexivity]. Qed.

(** How [ocBundleURL] ends once the major version, the version segment and
    the bundle are known. *)
Lemma ocBundleURL_false version osType major :
  exec reMajor (strip_v version) = Some major ->
  ocBundleURL K ocUtils version osType false =
    if (to_number major =? 3)%N then
      if truthy (getOcBundleByOS K osType)
      then Some (openshiftV3BaseUrl ocUtils +:+ "/" +:+ strip_v version +:+ "/"
                 +:+ template (getOcBundleByOS K osType))
      else None
    else if (to_number major =? 4)%N then
      if truthy (getOcBundleByOS K osType)
      then Some (openshiftV4BaseUrl ocUtils +:+ "/" +:+ strip_v version +:+ "/"
                 +:+ template (getOcBundleByOS K osType))
      else None
    else None.
Proof.
  intros Hm. unfold ocBundleURL.
  assert (is_empty version = false) as ->.
  { apply (vMajor_nonempty version (to_number major)). unfold vMajor. by rewrite Hm. }
  rewrite Hm. simpl.
  destruct (to_number major =? 3)%N;
    [|destruct (to_number major =? 4)%N; [|reflexivity]];
    destruct (truthy _); simpl; by rewrite ?append_assoc.
Qed.

Lemma ocBundleURL_true version osType major :
  exec reMajor (strip_v version) = Some major ->
  ocBundleURL K ocUtils version osType true =
    match exec reBase (strip_v version) with
    | None => None
    | Some baseVersion =>
        if truthy (ocUtils !! ("oc" +:+ baseVersion)) then
          if (to_number major =? 3)%N then
            if truthy (getOcBundleByOS K osType)
            then Some (openshiftV3BaseUrl ocUtils +:+ "/"
                       +:+ template (ocUtils !! ("oc" +:+ baseVersion)) +:+ "/"
                       +:+ template (getOcBundleByOS K osType))
            else None
          else if (to_number major =? 4)%N then
            if truthy (getOcBundleByOS K osType)
            then Some (openshiftV4BaseUrl ocUtils +:+ "/"
                       +:+ template (ocUtils !! ("oc" +:+ baseVersion)) +:+ "/"
                       +:+ template (getOcBundleByOS K osType))
            else None
          else None
        else None
    end.
Proof.
  intros Hm. unfold ocBundleURL.
  assert (is_empty version = false) as ->.
  { apply (vMajor_nonempty version (to_number major)). unfold vMajor. by rewrite Hm. }
  rewrite Hm. simpl.
  destruct (exec reBase (strip_v version)) as [b|]; [|reflexivity].
  destruct (ocUtils !! ("oc" +:+ b)) as [p|] eqn:Hp; simpl; [|reflexivity].
  destruct (is_empty p); simpl; [reflexivity|].
  destruct (to_number major =? 3)%N;
    [|destruct (to_number major =? 4)%N; [|reflexivity]];
    destruct (truthy _); simpl; by rewrite ?append_assoc.
Qed.

Lemma ocBundleURL_no_major version osType latest :
  exec reMajor (strip_v version) = None ->
  ocBundleURL K ocUtils version osType latest = None.
Proof.
  intros Hm. unfold ocBundleURL. rewrite Hm. by destruct (is_empty version).
Qed.

End ResolverFacts.

Lemma getOcBundleByOS_recognized (K : Constants) (osType : string) :
  osType ∈ ["Linux"; "Darwin"; "Windows_NT"] ->
  truthy (getOcBundleByOS K osType) = true.
Proof.
  intros Hos.
  assert (exists b, getOcBundleByOS K osType = Some b) as [b Hb].
  { repeat (apply elem_of_cons in Hos as [->|Hos]); [eauto ..|].
    by apply elem_of_nil in Hos. }
  by apply (getOcBundleByOS_truthy K osType b).
Qed.

Lemma getOcBundleByOS_other (K : Constants) (osType : string) :
  osType <> "Linux" -> osType <> "Darwin" -> osType <> "Windows_NT" ->
  getOcBundleByOS K osType = None.
Proof.
  intros H1 H2 H3. unfold getOcBundleByOS.
  apply String.eqb_neq in H1, H2, H3. by rewrite H1, H2, H3.
Qed.

Lemma getOcBundleByOS_unknown (K : Constants) (osType : string) :
  (osType ∉ ["Linux"; "Darwin"; "Windows_NT"]) ->
  getOcBundleByOS K osType = None.
Proof.
  intros Hos. apply getOcBundleByOS_other; intros ->; apply Hos; repeat constructor.
Qed.

Lemma latestStable_unknown (K : Constants) (ocUtils : gmap string string)
    (osType : string) :
  (osType ∉ ["Linux"; "Darwin"; "Windows_NT"]) ->
  latestStable K ocUtils osType = None.
Proof.
  intros Hos. unfold latestStable. by rewrite (getOcBundleByOS_unknown K osType Hos).
Qed.

Lemma ocBundleURL_some_bundle (K : Constants) (ocUtils : gmap string string)
    (version osType url : string) (latest : bool) :
  ocBundleURL K ocUtils version osType latest = Some url ->
  exists bundle, getOcBundleByOS K osType = Some bundle.
Proof.
  intros Hurl. destruct (getOcBundleByOS K osType) as [b|] eqn:Hb; [by exists b|].
  exfalso. unfold ocBundleURL in Hurl. rewrite Hb in Hurl. simpl in Hurl.
  by repeat case_match.
Qed.

(** C8: an OS identifier other than Linux, Darwin and Windows_NT has no
    bundle; each of the three has the bundle path made of its OS directory,
    a slash and its archive name. *)
Theorem getOcBundleByOS_table (K : Constants) :
  (forall osType : string,
     osType <> "Linux" -> osType <> "Darwin" -> osType <> "Windows_NT" ->
     getOcBundleByOS K osType = None)
  /\ getOcBundleByOS K "Linux" = Some (LINUX K +:+ "/" +:+ OC_TAR_GZ K)
  /\ getOcBundleByOS K "Darwin" = Some (MACOSX K +:+ "/" +:+ OC_TAR_GZ K)
  /\ getOcBundleByOS K "Windows_NT" = Some (WIN K +:+ "/" +:+ OC_ZIP K).
Proof.
  split; [|by repeat split].
  intros osType H1 H2 H3. by apply getOcBundleByOS_other.
Qed.

Lemma getOcBundleByOS_table_witness :
  "fakeOS" <> "Linux" /\ getOcBundleByOS Sim.constants "fakeOS" = None.
Proof.
  split; [discriminate|].
  apply (proj1 (getOcBundleByOS_table Sim.constants)); discriminate.
Defined.

(** C1: when the major version read from the version string is 3 (or 4)
    and the OS is one of Linux, Darwin, Windows_NT, [ocBundleURL] without
    the latest flag returns the version-3 (or version-4) base URL, a slash,
    the version without its leading [v], a slash and the OS bundle path;
    so it does for "v3.11.0" and for "4.11" on Linux. *)
Theorem ocBundleURL_versioned (K : Constants) (ocUtils : gmap string string) :
  (forall (version osType : string) (n : N),
     vMajor (strip_v version) = Some n ->
     n = 3%N \/ n = 4%N ->
     osType ∈ ["Linux"; "Darwin"; "Windows_NT"] ->
     ocBundleURL K ocUtils version osType false =
       Some ((if (n =? 3)%N then openshiftV3BaseUrl ocUtils
              else openshiftV4BaseUrl ocUtils)
             +:+ "/" +:+ strip_v version +:+ "/"
             +:+ template (getOcBundleByOS K osType)))
  /\ ocBundleURL K ocUtils "v3.11.0" "Linux" false =
       Some (openshiftV3BaseUrl ocUtils +:+ "/" +:+ "3.11.0" +:+ "/"
             +:+ LINUX K +:+ "/" +:+ OC_TAR_GZ K)
  /\ ocBundleURL K ocUtils "4.11" "Linux" false =
       Some (openshiftV4BaseUrl ocUtils +:+ "/" +:+ "4.11" +:+ "/"
             +:+ LINUX K +:+ "/" +:+ OC_TAR_GZ K).
Proof.
  assert (forall (version osType : string) (n : N),
     vMajor (strip_v version) = Some n ->
     n = 3%N \/ n = 4%N ->
     osType ∈ ["Linux"; "Darwin"; "Windows_NT"] ->
     ocBundleURL K ocUtils version osType false =
       Some ((if (n =? 3)%N then openshiftV3BaseUrl ocUtils
              else openshiftV4BaseUrl ocUtils)
             +:+ "/" +:+ strip_v version +:+ "/"
             +:+ template (getOcBundleByOS K osType))) as General.
  { intros version osType n Hn H34 Hos. unfold vMajor in Hn.
    destruct (exec reMajor (strip_v version)) as [major|] eqn:Hm; [|discriminate].
    injection Hn as Hn.
    rewrite (ocBundleURL_false K ocUtils version osType major Hm), Hn.
    rewrite (getOcBundleByOS_recognized K osType Hos).
    by destruct H34 as [-> | ->]. }
  split; [exact General|]. split.
  - apply (General "v3.11.0" "Linux" 3%N); [reflexivity | by left | set_solver].
  - apply (General "4.11" "Linux" 4%N); [reflexivity | by right | set_solver].
Qed.

Lemma ocBundleURL_versioned_witness :
  vMajor (strip_v "v4.1.18") = Some 4%N
  /\ ocBundleURL Sim.constants Sim.ocUtils "v4.1.18" "Windows_NT" false =
       Some "https://mirror.example/v4/clients/oc/4.1.18/windows/oc.zip".
Proof.
  split; [reflexivity|].
  apply (proj1 (ocBundleURL_versioned Sim.constants Sim.ocUtils)
           "v4.1.18" "Windows_NT" 4%N); [reflexivity | by right | repeat constructor].
Defined.

(** C5: when the major version read from the version string is neither 3
    nor 4, [ocBundleURL] returns nothing, whatever the latest flag; so it
    does for "5.1.0" on Linux. *)
Theorem ocBundleURL_unsupported_major (K : Constants) (ocUtils : gmap string string) :
  (forall (version osType : string) (latest : bool) (n : N),
     vMajor (strip_v version) = Some n ->
     n <> 3%N -> n <> 4%N ->
     ocBundleURL K ocUtils version osType latest = None)
  /\ ocBundleURL K ocUtils "5.1.0" "Linux" false = None.
Proof.
  assert (forall (version osType : string) (latest : bool) (n : N),
     vMajor (strip_v version) = Some n ->
     n <> 3%N -> n <> 4%N ->
     ocBundleURL K ocUtils version osType latest = None) as General.
  { intros version osType latest n Hn H3 H4. unfold vMajor in Hn.
    destruct (exec reMajor (strip_v version)) as [major|] eqn:Hm; [|discriminate].
    injection Hn as Hn.
    apply N.eqb_neq in H3, H4.
    destruct latest.
    - rewrite (ocBundleURL_true K ocUtils version osType major Hm), Hn, H3, H4.
      by repeat case_match.
    - by rewrite (ocBundleURL_false K ocUtils version osType major Hm), Hn, H3, H4. }
  split; [exact General|].
  by apply (General "5.1.0" "Linux" false 5%N).
Qed.

Lemma ocBundleURL_unsupported_major_witness :
  vMajor (strip_v "v2.0.3") = Some 2%N
  /\ ocBundleURL Sim.constants Sim.ocUtils "v2.0.3" "Darwin" true = None.
Proof.
  split; [reflexivity|].
  by apply (proj1 (ocBundleURL_unsupported_major Sim.constants Sim.ocUtils)
              "v2.0.3" "Darwin" true 2%N).
Defined.

(** C4: with the latest flag set, [ocBundleURL] returns nothing when no
    major.minor can be read from the version string (as for "3"), and when
    the major.minor line it reads has no entry in the latest-patch table. *)
Theorem ocBundleURL_latest_unresolved (K : Constants) (ocUtils : gmap string string) :
  (forall version osType : string,
     exec reBase (strip_v version) = None ->
     ocBundleURL K ocUtils version osType true = None)
  /\ (forall version osType baseVersion : string,
     exec reBase (strip_v version) = Some baseVersion ->
     ocUtils !! ("oc" +:+ baseVersion) = None ->
     ocBundleURL K ocUtils version osType true = None)
  /\ exec reBase (strip_v "3") = None
  /\ ocBundleURL K ocUtils "3" "Linux" true = None.
Proof.
  assert (forall version osType : string,
     exec reBase (strip_v version) = None ->
     ocBundleURL K ocUtils version osType true = None) as NoLine.
  { intros version osType Hb.
    destruct (exec reMajor (strip_v version)) as [major|] eqn:Hm.
    - by rewrite (ocBundleURL_true K ocUtils version osType major Hm), Hb.
    - by apply ocBundleURL_no_major. }
  split; [exact NoLine|]. split; [|split; [reflexivity | by apply NoLine]].
  intros version osType baseVersion Hb Hnone.
  destruct (exec reMajor (strip_v version)) as [major|] eqn:Hm.
  - by rewrite (ocBundleURL_true K ocUtils version osType major Hm), Hb, Hnone.
  - by apply ocBundleURL_no_major.
Qed.

Lemma ocBundleURL_latest_unresolved_witness :
  exec reBase (strip_v "v3.17.2") = Some "3.17"
  /\ Sim.ocUtils !! ("oc" +:+ "3.17") = None
  /\ ocBundleURL Sim.constants Sim.ocUtils "v3.17.2" "Linux" true = None
  /\ exec reBase (strip_v "v4") = None
  /\ ocBundleURL Sim.constants Sim.ocUtils "v4" "Linux" true = None.
Proof.
  split; [reflexivity|]. split; [reflexivity|]. split.
  - by apply (proj1 (proj2 (ocBundleURL_latest_unresolved Sim.constants Sim.ocUtils))
                "v3.17.2" "Linux" "3.17").
  - split; [reflexivity|].
    by apply (proj1 (ocBundleURL_latest_unresolved Sim.constants Sim.ocUtils)
                "v4" "Linux").
Defined.

(** C10: with the latest flag set, the base URL is chosen by the major
    version read from the version string the caller passed; the patch
    version taken from the table only fills the version segment, whatever
    major that patch version itself starts with. *)
Theorem ocBundleURL_family_from_request (K : Constants) (ocUtils : gmap string string)
    (version osType baseVersion patch : string) (n : N) :
  vMajor (strip_v version) = Some n ->
  exec reBase (strip_v version) = Some baseVersion ->
  ocUtils !! ("oc" +:+ baseVersion) = Some patch ->
  patch <> "" ->
  osType ∈ ["Linux"; "Darwin"; "Windows_NT"] ->
  ocBundleURL K ocUtils version osType true =
    if (n =? 3)%N
    then Some (openshiftV3BaseUrl ocUtils +:+ "/" +:+ patch +:+ "/"
               +:+ template (getOcBundleByOS K osType))
    else if (n =? 4)%N
    then Some (openshiftV4BaseUrl ocUtils +:+ "/" +:+ patch +:+ "/"
               +:+ template (getOcBundleByOS K osType))
    else None.
Proof.
  intros Hn Hb Hp Hne Hos. unfold vMajor in Hn.
  destruct (exec reMajor (strip_v version)) as [major|] eqn:Hm; [|discriminate].
  injection Hn as Hn.
  rewrite (ocBundleURL_true K ocUtils version osType major Hm), Hb, Hp, Hn.
  rewrite (getOcBundleByOS_recognized K osType Hos).
  destruct patch; [done|]. reflexivity.
Qed.

Lemma ocBundleURL_family_from_request_witness :
  vMajor (strip_v "3.9.1") = Some 3%N
  /\ vMajor "4.0.0" = Some 4%N
  /\ ocBundleURL Sim.constants Sim.ocUtils "3.9.1" "Linux" true =
       Some "https://mirror.example/v3/clients/4.0.0/linux/oc.tar.gz".
Proof.
  split; [reflexivity|]. split; [reflexivity|].
  apply (ocBundleURL_family_from_request Sim.constants Sim.ocUtils
           "3.9.1" "Linux" "3.9" "4.0.0" 3%N);
    [reflexivity | reflexivity | reflexivity | discriminate | repeat constructor].
Defined.

(** ** Running programs *)

Section RunFacts.
Context (ag : agent).

Lemma run_bind {A B : Type} (p : prog A) (f : A -> prog B) (w : world ag) :
  run ag (p ≫= f) w =
    match run ag p w with
    | (tr1, Returned a, w1) =>
        let '(tr2, o, w2) := run ag (f a) w1 in (tr1 ++ tr2, o, w2)
    | (tr1, Thrown msg, w1) => (tr1, Thrown msg, w1)
    end.
Proof.
  unfold mbind, prog_bind. revert w.
  induction p as [a | msg | c k IH]; intros w; simpl.
  - by destruct (run ag (f a) w) as [[tr2 o] w2].
  - reflexivity.
  - destruct (answer ag c w) as [r w1]. rewrite IH.
    destruct (run ag (k r) w1) as [[tr1 [a | msg]] w2]; [|reflexivity].
    by destruct (run ag (f a) w2) as [[tr2 o] w3].
Qed.

End RunFacts.

Lemma all_calls_bind (P : call -> Prop) {A B : Type} (p : prog A) (f : A -> prog B) :
  all_calls P p -> (forall a, all_calls P (f a)) -> all_calls P (p ≫= f).
Proof.
  intros Hp Hf. unfold mbind, prog_bind.
  induction Hp as [a | msg | c k Hc Hk IH]; simpl.
  - apply Hf.
  - constructor.
  - constructor; [exact Hc | exact IH].
Qed.

Lemma all_calls_perform (P : call -> Prop) (c : call) :
  P c -> all_calls P (perform c).
Proof.
  intros Hc. constructor; [exact Hc|]. intros [v | msg]; constructor.
Qed.

Lemma all_calls_run (P : call -> Prop) {A : Type} (p : prog A) (ag : agent)
    (w : world ag) :
  all_calls P p -> Forall P (calls ag p w).
Proof.
  intros Hp. unfold calls. revert w.
  induction Hp as [a | msg | c k Hc Hk IH]; intros w; simpl; [constructor ..|].
  destruct (answer ag c w) as [r w1]. specialize (IH r w1).
  destruct (run ag (k r) w1) as [[tr o] w2]. simpl in *. by constructor.
Qed.


(** Splits a goal about the calls of a program along its structure. *)
Ltac all_calls_steps :=
  repeat first
    [ apply all_calls_Ret
    | apply all_calls_Throw
    | match goal with
      | |- all_calls ?P (perform ?c) => apply (all_calls_perform P c)
      end
    | apply all_calls_bind; [|intros]
    | match goal with
      | |- all_calls _ (if ?b then _ else _) => destruct b
      | |- all_calls _ (match ?o with Some _ => _ | None => _ end) => destruct o
      end ].

Lemma ends_run {A : Type} (Q : list call -> outcome A -> Prop) (p : prog A)
    (ag : agent) (w : world ag) :
  ends Q p -> Q (calls ag p w) (ending ag p w).
Proof.
  intros Hp. unfold calls, ending. revert w.
  induction Hp as [Q a HQ | Q msg HQ | Q c k Hk IH]; intros w; simpl; [done ..|].
  destruct (answer ag c w) as [r w1]. specialize (IH r w1).
  by destruct (run ag (k r) w1) as [[tr o] w2].
Qed.

Lemma ends_run_eq {A : Type} (Q : list call -> outcome A -> Prop) (p : prog A)
    (ag : agent) (w w1 : world ag) (tr : list call) (o : outcome A) :
  ends Q p -> run ag p w = (tr, o, w1) -> Q tr o.
Proof.
  intros Hp Hrun. pose proof (ends_run Q p ag w Hp) as H.
  unfold calls, ending in H. by rewrite Hrun in H.
Qed.

(** Walks through a program given as a tree of calls. *)
Ltac ends_steps :=
  unfold mbind, prog_bind, perform;
  repeat (cbn [bind negb];
          first
            [ apply ends_Ret
            | apply ends_Throw
            | apply ends_Do; intros [?|?]
            | match goal with
              | |- ends _ (if ?b then _ else _) => destruct b eqn:?
              | |- ends _ (match ?o with Some _ => _ | None => _ end) =>
                  destruct o eqn:?
              | |- ends _ (bind (if ?b then _ else _) _) => destruct b eqn:?
              | |- ends _ (bind (match ?o with Some _ => _ | None => _ end) _) =>
                  destruct o eqn:?
              | |- ends _ ?p =>
                  match p with
                  | context [if negb ?b then _ else _] => is_var b; destruct b
                  | context [if ?b then _ else _] => is_var b; destruct b
                  | context [match ?o with Some _ => _ | None => _ end] =>
                      is_var o; destruct o
                  | context [bind (if ?b then _ else _) _] => destruct b eqn:?
                  | context [bind (match ?o with Some _ => _ | None => _ end) _] =>
                      destruct o eqn:?
                  end
              end ]).

(** Runs the next call of the program under [run] with the answer [H]. *)
Ltac run_answer H :=
  unfold mbind, prog_bind, perform; cbn [run bind];
  rewrite H; cbn [run bind negb].

(** ** Download and extraction *)

Lemma is_empty_false (s : string) : s <> "" -> is_empty s = false.
Proof. by destruct s. Qed.

(** C7: with an empty URL, [downloadAndExtract] returns nothing and makes
    no call at all on the agent: no existence check, no download, no
    extraction. *)
Theorem downloadAndExtract_empty_url (L : Libs) (downloadDir osType proxy : string)
    (ag : agent) (w : world ag) :
  run ag (downloadAndExtract L "" downloadDir osType proxy) w
  = ([], Returned None, w).
Proof. reflexivity. Qed.

(** C6: with a non-empty URL and a normalized target directory that does
    not exist, [downloadAndExtract] rejects with "<dir> does not exist."
    after the existence check, its only call: the directory is not
    created, nothing is downloaded and nothing is extracted. *)
Theorem downloadAndExtract_missing_dir (L : Libs)
    (url downloadDir osType proxy : string) (ag : agent) (w w1 : world ag) :
  url <> "" ->
  answer ag (Exist (path_normalize L downloadDir)) w = (Returned false, w1) ->
  run ag (downloadAndExtract L url downloadDir osType proxy) w
  = ([Exist (path_normalize L downloadDir)],
     Thrown (path_normalize L downloadDir +:+ " does not exist."),
     w1).
Proof.
  intros Hurl Hdir. unfold downloadAndExtract.
  rewrite (is_empty_false url Hurl).
  by run_answer Hdir.
Qed.

Lemma downloadAndExtract_missing_dir_witness :
  "https://mirror.example/oc.zip" <> ""
  /\ run Sim.sim (downloadAndExtract Sim.libs "https://mirror.example/oc.zip"
                    "/nowhere" "Linux" "") (Sim.fresh ["oc"])
     = ([Exist "/nowhere"], Thrown "/nowhere does not exist.", Sim.fresh ["oc"]).
Proof.
  split; [discriminate|].
  apply (downloadAndExtract_missing_dir Sim.libs "https://mirror.example/oc.zip"
           "/nowhere" "Linux" "" Sim.sim (Sim.fresh ["oc"]) (Sim.fresh ["oc"]));
    [discriminate | reflexivity].
Defined.

(** On Windows_NT too the executable is handed to [chmodSync]: a run on
    the simulated agent that returns the path of [oc.exe] after setting its
    mode. *)
Lemma downloadAndExtract_windows_chmod :
  let p := downloadAndExtract Sim.libs "https://mirror.example/windows/oc.zip"
             "/work/.download" "Windows_NT" "" in
  ending Sim.sim p (Sim.fresh ["oc.exe"]) = Returned (Some "/work/.download/oc.exe")
  /\ filter (fun c => is_ChmodSync c = true) (calls Sim.sim p (Sim.fresh ["oc.exe"]))
     = [ChmodSync "/work/.download/oc.exe" "0755"].
Proof. split; reflexivity. Qed.

(** C2, as the code has it: once the target directory exists, the archive
    is there or has been downloaded, the extraction has succeeded and the
    expected executable ([oc.exe] for Windows_NT, [oc] otherwise) exists,
    [downloadAndExtract] sets the mode of that file to 0755 as its last
    call, for every OS identifier, Windows_NT included, and then returns
    the path of the file. *)
Theorem downloadAndExtract_marks_executable (L : Libs)
    (url downloadDir osType proxy : string) (ag : agent)
    (w w1 w2 w3 w4 w5 w6 : world ag) (cached : bool) (tr : list call)
    (r : outcome unit) :
  url <> "" ->
  answer ag (Exist (path_normalize L downloadDir)) w = (Returned true, w1) ->
  answer ag (Exist (archivePathOf L url downloadDir)) w1 = (Returned cached, w2) ->
  run ag (if negb cached
          then perform (ToolExec "curl"
                          (curlArgs proxy (archivePathOf L url downloadDir) url))
          else Ret tt) w2 = (tr, Returned tt, w3) ->
  answer ag (UnzipArchive (archiveTypeOf L (archiveOf url))
                          (archivePathOf L url downloadDir)
                          (path_normalize L downloadDir)) w3 = (Returned tt, w4) ->
  answer ag (Exist (ocBinaryPath L downloadDir osType)) w4 = (Returned true, w5) ->
  answer ag (ChmodSync (ocBinaryPath L downloadDir osType) "0755") w5 = (r, w6) ->
  run ag (downloadAndExtract L url downloadDir osType proxy) w
  = ([Exist (path_normalize L downloadDir);
      Exist (archivePathOf L url downloadDir)]
     ++ tr
     ++ [UnzipArchive (archiveTypeOf L (archiveOf url))
                      (archivePathOf L url downloadDir)
                      (path_normalize L downloadDir);
         Exist (ocBinaryPath L downloadDir osType);
         ChmodSync (ocBinaryPath L downloadDir osType) "0755"],
     match r with
     | Returned _ => Returned (Some (ocBinaryPath L downloadDir osType))
     | Thrown msg => Thrown msg
     end,
     w6).
Proof.
  unfold archivePathOf, ocBinaryPath, archiveOf.
  intros Hurl Hdir Hcached Hcurl Hunzip Hfound Hchmod.
  unfold downloadAndExtract. rewrite (is_empty_false url Hurl).
  run_answer Hdir. run_answer Hcached.
  destruct cached; cbn [negb] in Hcurl |- *.
  - injection Hcurl as <- <-.
    run_answer Hunzip. run_answer Hfound. run_answer Hchmod.
    by destruct r.
  - unfold perform in Hcurl. cbn [run] in Hcurl.
    destruct (answer ag (ToolExec _ _) w2) as [[[]|msg] w3'] eqn:Hc;
      cbn [run] in Hcurl; [|discriminate].
    injection Hcurl as <- <-.
    run_answer Hc. run_answer Hunzip. run_answer Hfound. run_answer Hchmod.
    by destruct r.
Qed.

Lemma downloadAndExtract_marks_executable_witness :
  let url := "https://mirror.example/windows/oc.zip" in
  let w := Sim.fresh ["oc.exe"] in
  let w3 := (Sim.respond (ToolExec "curl"
               ["-s"; "-L"; "-o"; "/work/.download/oc.zip"; url]) w).2 in
  let w4 := (Sim.respond (UnzipArchive ".zip" "/work/.download/oc.zip"
               "/work/.download") w3).2 in
  let w6 := (Sim.respond (ChmodSync "/work/.download/oc.exe" "0755") w4).2 in
  url <> ""
  /\ run Sim.sim (downloadAndExtract Sim.libs url "/work/.download" "Windows_NT" "") w
     = ([Exist "/work/.download"; Exist "/work/.download/oc.zip"]
        ++ [ToolExec "curl" ["-s"; "-L"; "-o"; "/work/.download/oc.zip"; url]]
        ++ [UnzipArchive ".zip" "/work/.download/oc.zip" "/work/.download";
            Exist "/work/.download/oc.exe";
            ChmodSync "/work/.download/oc.exe" "0755"],
        Returned (Some "/work/.download/oc.exe"),
        w6).
Proof.
  intros url w w3 w4 w6. split; [discriminate|].
  apply (downloadAndExtract_marks_executable Sim.libs url "/work/.download"
           "Windows_NT" "" Sim.sim w w w w3 w4 w4 w6 false
           [ToolExec "curl" ["-s"; "-L"; "-o"; "/work/.download/oc.zip"; url]]
           (Returned tt));
    [discriminate | reflexivity ..].
Defined.

(** ** Installation *)

Lemma downloadAndExtract_no_probe (L : Libs) (url downloadDir osType proxy : string) :
  all_calls no_probe (downloadAndExtract L url downloadDir osType proxy).
Proof. unfold downloadAndExtract. all_calls_steps; exact eq_refl. Qed.

Lemma installFrom_no_probe (L : Libs) (url : option string)
    (downloadDir osType proxy : string) :
  all_calls no_probe (installFrom L url downloadDir osType proxy).
Proof.
  unfold installFrom. destruct url as [url|]; [|constructor].
  apply all_calls_bind; [apply downloadAndExtract_no_probe|].
  intros [p|]; constructor.
Qed.

Lemma getOcVersion_no_probe (ocPath : string) :
  all_calls no_probe (getOcVersion ocPath).
Proof. unfold getOcVersion. all_calls_steps; exact eq_refl. Qed.

Lemma getLocalOcPath_no_probe (version : option string) :
  all_calls no_probe (getLocalOcPath version).
Proof.
  unfold getLocalOcPath.
  apply all_calls_bind.
  - constructor; [exact eq_refl|]. intros [p|msg]; constructor.
  - intros ocPath. destruct (truthy version && truthy ocPath); [|constructor].
    apply all_calls_bind; [apply getOcVersion_no_probe|].
    intros v. all_calls_steps.
Qed.

Lemma createDownloadDir_no_probe (env : gmap string string) :
  all_calls no_probe (createDownloadDir env).
Proof. unfold createDownloadDir. all_calls_steps; exact eq_refl. Qed.




(** ** The patch command *)

(** C9: a ConfigMap named foo with an empty properties line and an empty
    namespace gives the command [patch configmap foo -p '{"data":{}}'];
    a PatchSpec without pairs gives a payload whose data object is
    empty. *)
Theorem patchCmd_no_properties (interpolate : string -> string) :
  ConfigMap.patchCmd interpolate "foo" "" ""
  = "patch configmap foo -p '{" +:+ String "034" "data" +:+ String "034" ":{}}'"
  /\ ConfigMap.patchSpec interpolate "" = []
  /\ ConfigMap.payload []
     = "{" +:+ String "034" "data" +:+ String "034" ":{}}".
Proof. repeat split; reflexivity. Qed.

(** ** The regular expressions of the installer *)

Lemma chars_app (a b : string) : chars (a +:+ b) = chars a ++ chars b.
Proof.
  induction a as [|x a IH]; [reflexivity|].
  change (x :: chars (a +:+ b) = x :: (chars a ++ chars b)). by rewrite IH.
Qed.

Lemma str_chars (s : string) : str (chars s) = s.
Proof. apply string_of_list_ascii_of_string. Qed.

Lemma chars_str (l : list ascii) : chars (str l) = l.
Proof. apply list_ascii_of_string_of_list_ascii. Qed.

Lemma str_app (a b : list ascii) : str (a ++ b) = str a +:+ str b.
Proof.
  rewrite <- (str_chars (str a +:+ str b)). by rewrite chars_app, !chars_str.
Qed.

Lemma take_app_suffix (m rest : list ascii) :
  take (length (m ++ rest) - length rest) (m ++ rest) = m.
Proof.
  rewrite length_app. replace (length m + length rest - length rest) with (length m) by lia.
  by rewrite take_app_length.
Qed.

(** What a matcher leaves is a suffix of what it was given. *)
Lemma star_suffix (step : list ascii -> list (list ascii)) (fuel : nat) :
  (forall s rest, In rest (step s) -> exists m, s = m ++ rest) ->
  forall s rest, In rest (star step fuel s) -> exists m, s = m ++ rest.
Proof.
  intros Hstep. induction fuel as [|fuel IH]; intros s rest; simpl.
  - intros [<- | []]. by exists [].
  - rewrite in_app_iff, in_flat_map. intros [(s1 & Hs1 & Hin) | [<- | []]].
    + destruct (length s1 <? length s)%nat; [|destruct Hin].
      destruct (Hstep _ _ Hs1) as [m1 ->]. destruct (IH _ _ Hin) as [m2 ->].
      exists (m1 ++ m2). by rewrite app_assoc.
    + by exists [].
Qed.

Lemma one_suffix (p : ascii -> bool) (s rest : list ascii) :
  In rest (one p s) -> exists a, p a = true /\ s = a :: rest.
Proof.
  destruct s as [|a s]; simpl; [intros []|].
  destruct (p a) eqn:Hp; [|intros []]. intros [<- | []]. eauto.
Qed.

Lemma rmatch_suffix (r : regex) (s rest : list ascii) :
  In rest (rmatch r s) -> exists m, s = m ++ rest.
Proof.
  revert s rest. induction r as [c | | | r1 IH1 r2 IH2 | r IH | r IH | r IH];
    intros s rest; simpl.
  - intros H. destruct (one_suffix _ _ _ H) as (a & _ & ->). by exists [a].
  - intros H. destruct (one_suffix _ _ _ H) as (a & _ & ->). by exists [a].
  - intros H. destruct (one_suffix _ _ _ H) as (a & _ & ->). by exists [a].
  - rewrite in_flat_map. intros (s1 & H1 & H2).
    destruct (IH1 _ _ H1) as [m1 ->]. destruct (IH2 _ _ H2) as [m2 ->].
    exists (m1 ++ m2). by rewrite app_assoc.
  - rewrite in_flat_map. intros (s1 & H1 & H2).
    destruct (IH _ _ H1) as [m1 ->].
    destruct (star_suffix _ _ IH _ _ H2) as [m2 ->].
    exists (m1 ++ m2). by rewrite app_assoc.
  - apply star_suffix, IH.
  - destruct (rmatch r s); [intros [] | intros [<- | []]]. by exists [].
Qed.

Lemma exec_chars_unfold (r : regex) (s : list ascii) :
  exec_chars r s =
    match rmatch r s with
    | rest :: _ => Some (take (length s - length rest) s)
    | [] => match s with
            | [] => None
            | _ :: s' => exec_chars r s'
            end
    end.
Proof. by destruct s. Qed.

(** [exec] returns a piece of the subject that the pattern matches. *)
Lemma exec_chars_sound (r : regex) (s m : list ascii) :
  exec_chars r s = Some m ->
  exists pre rest, s = pre ++ m ++ rest /\ In rest (rmatch r (m ++ rest)).
Proof.
  revert m. induction s as [|a s IH]; intros m; rewrite exec_chars_unfold;
    destruct (rmatch r _) as [|rest l] eqn:Hr.
  - discriminate.
  - intros Heq.
    destruct (rmatch_suffix r [] rest) as [m' Hm]; [rewrite Hr; by left|].
    symmetry in Hm. apply app_eq_nil in Hm as [-> ->].
    assert (m = []) as -> by (simpl in Heq; congruence).
    exists [], []. simpl. rewrite Hr. split; [reflexivity | by left].
  - intros H. destruct (IH _ H) as (pre & rest & -> & Hin).
    by exists (a :: pre), rest.
  - intros Heq.
    destruct (rmatch_suffix r (a :: s) rest) as [m' Hm]; [rewrite Hr; by left|].
    assert (m = m') as ->.
    { rewrite Hm, take_app_suffix in Heq. congruence. }
    exists [], rest. rewrite app_nil_l, <- Hm, Hr.
    split; [reflexivity | by left].
Qed.

(** The first alternative tried at the first position wins. *)
Lemma exec_chars_head (r : regex) (m rest : list ascii) (l : list (list ascii)) :
  rmatch r (m ++ rest) = rest :: l -> exec_chars r (m ++ rest) = Some m.
Proof.
  intros Hr. by rewrite exec_chars_unfold, Hr, take_app_suffix.
Qed.

(** *** Runs of digits *)

Lemma star_digit_head (ds rest : list ascii) (fuel : nat) :
  digits ds -> not_digit_next rest -> length (ds ++ rest) <= fuel ->
  exists l, star (rmatch RDigit) fuel (ds ++ rest) = rest :: l.
Proof.
  intros Hds Hrest. revert fuel.
  induction Hds as [|d ds Hd Hds IH]; intros fuel Hlen.
  - destruct fuel as [|fuel]; simpl; [by exists []|].
    destruct rest as [|a rest]; simpl in *; [by exists []|].
    rewrite Hrest. by exists [].
  - destruct fuel as [|fuel]; [simpl in Hlen; lia|].
    destruct (IH fuel) as [l Hl]; [simpl in Hlen; lia|].
    change ((d :: ds) ++ rest) with (d :: ds ++ rest). cbn [star].
    change (rmatch RDigit (d :: ds ++ rest))
      with (if is_digit d then [ds ++ rest] else []).
    rewrite Hd. cbn [flat_map].
    assert ((length (ds ++ rest) <? length (d :: ds ++ rest))%nat = true) as ->.
    { apply Nat.ltb_lt. simpl. lia. }
    rewrite Hl. by eexists.
Qed.

Lemma plus_digit_head (ds rest : list ascii) :
  ds <> [] -> digits ds -> not_digit_next rest ->
  exists l, rmatch (RPlus RDigit) (ds ++ rest) = rest :: l.
Proof.
  intros Hne Hds Hrest. destruct ds as [|d ds]; [done|].
  apply Forall_cons in Hds as [Hd Hds].
  destruct (star_digit_head ds rest (length (ds ++ rest)) Hds Hrest) as [l Hl]; [lia|].
  change (rmatch (RPlus RDigit) ((d :: ds) ++ rest))
    with (flat_map (fun s' => star (rmatch RDigit) (length s') s')
            (if is_digit d then [ds ++ rest] else [])).
  rewrite Hd. cbn [flat_map]. rewrite Hl, app_nil_r. by eexists.
Qed.

Lemma star_digit_sound (fuel : nat) (s rest : list ascii) :
  In rest (star (rmatch RDigit) fuel s) -> exists m, s = m ++ rest /\ digits m.
Proof.
  revert s rest. induction fuel as [|fuel IH]; intros s rest; simpl.
  - intros [<- | []]. exists []. split; [reflexivity | constructor].
  - rewrite in_app_iff, in_flat_map. intros [(s1 & Hs1 & Hin) | [<- | []]].
    + destruct (length s1 <? length s)%nat; [|destruct Hin].
      destruct (one_suffix _ _ _ Hs1) as (a & Ha & ->).
      destruct (IH _ _ Hin) as (m & -> & Hm).
      exists (a :: m). split; [reflexivity | by constructor].
    + exists []. split; [reflexivity | constructor].
Qed.

Lemma plus_digit_sound (s rest : list ascii) :
  In rest (rmatch (RPlus RDigit) s) ->
  exists m, s = m ++ rest /\ m <> [] /\ digits m.
Proof.
  simpl. rewrite in_flat_map. intros (s1 & Hs1 & Hin).
  destruct (one_suffix _ _ _ Hs1) as (a & Ha & ->).
  destruct (star_digit_sound _ _ _ Hin) as (m & -> & Hm).
  exists (a :: m). split; [reflexivity|]. split; [done | by constructor].
Qed.

(** A repeated lookahead consumes nothing and never fails. *)
Lemma star_look_inert (r : regex) (fuel : nat) (s : list ascii) :
  star (rmatch (RLook r)) fuel s = [s].
Proof.
  destruct fuel as [|fuel]; [reflexivity|]. simpl.
  destruct (rmatch r s); [reflexivity|]. simpl.
  by rewrite Nat.ltb_irrefl.
Qed.

Lemma flat_map_singleton {A : Type} (l : list A) :
  flat_map (fun x => [x]) l = l.
Proof. induction l as [|x l IH]; simpl; [reflexivity | by rewrite IH]. Qed.

Lemma rmatch_reBase (s : list ascii) :
  rmatch reBase s = rmatch reMajorMinor s.
Proof.
  unfold reBase, reMajorMinor.
  change (rmatch (RSeq (RPlus RDigit)
                    (RSeq (RChar ".") (RSeq (RPlus RDigit) (RStar (RLook (RChar ".")))))) s)
    with (flat_map (fun s1 =>
            flat_map (fun s2 =>
              flat_map (fun s3 => star (rmatch (RLook (RChar "."))) (length s3) s3)
                       (rmatch (RPlus RDigit) s2))
              (rmatch (RChar ".") s1))
            (rmatch (RPlus RDigit) s)).
  change (rmatch (RSeq (RPlus RDigit) (RSeq (RChar ".") (RPlus RDigit))) s)
    with (flat_map (fun s1 =>
            flat_map (rmatch (RPlus RDigit)) (rmatch (RChar ".") s1))
            (rmatch (RPlus RDigit) s)).
  apply flat_map_ext. intros s1. apply flat_map_ext. intros s2.
  rewrite (flat_map_ext _ (fun x => [x])); [apply flat_map_singleton|].
  intros s3. apply star_look_inert.
Qed.

Lemma exec_chars_ext (r1 r2 : regex) :
  (forall s, rmatch r1 s = rmatch r2 s) ->
  forall s, exec_chars r1 s = exec_chars r2 s.
Proof.
  intros Hr s. induction s as [|a s IH];
    rewrite (exec_chars_unfold r1), (exec_chars_unfold r2), Hr;
    [reflexivity|]. by rewrite IH.
Qed.

(** ** How versions are read *)




Lemma exec_chars_reMajor_shape (l m : list ascii) :
  exec_chars reMajor l = Some m ->
  m <> [] /\ digits m /\ exists pre post, l = pre ++ m ++ "."%char :: post.
Proof.
  intros Hm.
  destruct (exec_chars_sound _ _ _ Hm) as (pre & rest & Hs & Hin).
  change (rmatch reMajor (m ++ rest))
    with (flat_map (rmatch (RLook (RChar "."))) (rmatch (RPlus RDigit) (m ++ rest))) in Hin.
  apply in_flat_map in Hin as (s1 & Hplus & Hlook).
  destruct (plus_digit_sound _ _ Hplus) as (m1 & Heq & Hne & Hdig).
  assert (s1 = rest /\ exists post, rest = "."%char :: post) as [-> [post ->]].
  { simpl in Hlook. destruct s1 as [|a s1]; [destruct Hlook|]. simpl in Hlook.
    destruct (Ascii.eqb a ".") eqn:Ha; [|destruct Hlook].
    apply Ascii.eqb_eq in Ha as ->. destruct Hlook as [<- | []]. eauto. }
  apply app_inv_tail in Heq as ->. eauto.
Qed.

(** X2: What the major pattern matches is a non-empty run of digits that is
    followed by a dot in the version string. *)
Theorem reMajor_match_shape (s m : string) :
  exec reMajor s = Some m ->
  m <> "" /\ digits (chars m)
  /\ exists pre post : string, s = pre +:+ m +:+ "." +:+ post.
Proof.
  unfold exec. destruct (exec_chars reMajor (chars s)) as [m'|] eqn:Hm; [|discriminate].
  intros [= <-].
  destruct (exec_chars_reMajor_shape _ _ Hm) as (Hne & Hdig & pre & post & Hs).
  split; [|split].
  - intros Hempty. apply Hne. by rewrite <- (chars_str m'), Hempty.
  - by rewrite chars_str.
  - exists (str pre), (str post).
    rewrite <- (str_chars s), Hs, !str_app. reflexivity.
Qed.

Lemma reMajor_match_shape_witness :
  exec reMajor "oc-v4.12.3" = Some "4"
  /\ "4" <> "" /\ digits (chars "4")
  /\ exists pre post : string, "oc-v4.12.3" = pre +:+ "4" +:+ "." +:+ post.
Proof.
  split; [reflexivity|].
  apply (reMajor_match_shape "oc-v4.12.3" "4"). reflexivity.
Defined.

(** X3: The repeated lookahead at the end of the major.minor pattern changes
    nothing: the pattern matches exactly what [\d+\.\d+] matches, so a
    version needs no dot after its minor number. *)
Theorem reBase_lookahead_inert (s : string) :
  exec reBase s = exec reMajorMinor s.
Proof.
  unfold exec. by rewrite (exec_chars_ext reBase reMajorMinor rmatch_reBase).
Qed.

(** X4: The major.minor line of [<digits>.<digits><rest>], where [rest] does
    not go on with a digit, is [<digits>.<digits>]. *)
Theorem reBase_major_minor (major minor rest : string) :
  major <> "" -> digits (chars major) ->
  minor <> "" -> digits (chars minor) ->
  not_digit_next (chars rest) ->
  exec reBase (major +:+ "." +:+ minor +:+ rest) = Some (major +:+ "." +:+ minor).
Proof.
  intros Hne1 Hd1 Hne2 Hd2 Hrest.
  unfold exec. rewrite (exec_chars_ext reBase reMajorMinor rmatch_reBase).
  assert (chars (major +:+ "." +:+ minor +:+ rest)
          = (chars major ++ "."%char :: chars minor) ++ chars rest) as ->.
  { rewrite chars_app.
    change (chars ("." +:+ minor +:+ rest)) with ("."%char :: chars (minor +:+ rest)).
    by rewrite chars_app, <- app_assoc. }
  assert (exists l, rmatch reMajorMinor ((chars major ++ "."%char :: chars minor) ++ chars rest)
                    = chars rest :: l) as [l Hl].
  { rewrite <- app_assoc. 
    change ((("."%char :: chars minor) ++ chars rest))
      with ("."%char :: chars minor ++ chars rest).
    destruct (plus_digit_head (chars major) ("."%char :: chars minor ++ chars rest))
      as [l1 Hl1]; [by destruct major | exact Hd1 | reflexivity |].
    destruct (plus_digit_head (chars minor) (chars rest))
      as [l2 Hl2]; [by destruct minor | exact Hd2 | exact Hrest |].
    change (rmatch reMajorMinor (chars major ++ "."%char :: chars minor ++ chars rest))
      with (flat_map (fun s1 =>
              flat_map (rmatch (RPlus RDigit)) (rmatch (RChar ".") s1))
              (rmatch (RPlus RDigit) (chars major ++ "."%char :: chars minor ++ chars rest))).
    rewrite Hl1. cbn [flat_map].
    change (rmatch (RChar ".") ("."%char :: chars minor ++ chars rest))
      with [chars minor ++ chars rest].
    cbn [flat_map]. rewrite Hl2. by eexists. }
  rewrite (exec_chars_head _ _ _ _ Hl). simpl.
  rewrite <- (str_chars (major +:+ "." +:+ minor)). f_equal. f_equal.
  by rewrite chars_app.
Qed.

Lemma reBase_major_minor_witness :
  "3" <> "" /\ exec reBase "3.11-beta" = Some "3.11".
Proof.
  split; [discriminate|].
  apply (reBase_major_minor "3" "11" "-beta");
    [discriminate | repeat constructor | discriminate | repeat constructor
    | reflexivity].
Defined.

Lemma strip_v_chars (version : string) (a : ascii) :
  a ∈ chars (strip_v version) -> a ∈ chars version.
Proof.
  unfold strip_v. destruct version as [|c version]; simpl; [done|].
  destruct (Ascii.eqb c "v"); [|done]. apply list_elem_of_further.
Qed.

(** X5: A version string without a dot never resolves to a URL, with or
    without the latest flag. *)
Theorem ocBundleURL_needs_dot (K : Constants) (ocUtils : gmap string string)
    (version osType : string) (latest : bool) :
  ("."%char ∉ chars version) ->
  ocBundleURL K ocUtils version osType latest = None.
Proof.
  intros Hdot. apply ocBundleURL_no_major. unfold exec.
  destruct (exec_chars reMajor (chars (strip_v version))) as [m|] eqn:Hm;
    [|reflexivity].
  destruct (exec_chars_reMajor_shape _ _ Hm) as (_ & _ & pre & post & Hs).
  exfalso. apply Hdot, strip_v_chars. rewrite Hs, !elem_of_app.
  right. right. apply list_elem_of_here.
Qed.

Lemma ocBundleURL_needs_dot_witness :
("."%char ∉ chars "v311")
  /\ ocBundleURL Sim.constants Sim.ocUtils "v311" "Linux" false = None.
Proof.
  assert ("."%char ∉ chars "v311") as Hdot.
  { intros H. repeat (apply elem_of_cons in H as [H|H]; [discriminate|]).
    by apply elem_of_nil in H. }
  split; [exact Hdot|].
  by apply (ocBundleURL_needs_dot Sim.constants Sim.ocUtils "v311" "Linux" false).
Defined.

(** X6: A URL that [ocBundleURL] returns is the version-3 or the version-4
    base URL, a version segment and the bundle path of the OS, and the
    major version read from the version string is 3 or 4 accordingly; the
    segment is the version without its leading [v], or with the latest flag
    the table's entry for the major.minor line. *)
Theorem ocBundleURL_result_shape (K : Constants) (ocUtils : gmap string string)
    (version osType url : string) (latest : bool) :
  ocBundleURL K ocUtils version osType latest = Some url ->
  exists (n : N) (segment bundle : string),
    vMajor (strip_v version) = Some n
    /\ getOcBundleByOS K osType = Some bundle
    /\ (if latest
        then exists baseVersion, exec reBase (strip_v version) = Some baseVersion
                                 /\ ocUtils !! ("oc" +:+ baseVersion) = Some segment
        else segment = strip_v version)
    /\ (n = 3%N /\ url = openshiftV3BaseUrl ocUtils +:+ "/" +:+ segment +:+ "/" +:+ bundle
        \/ n = 4%N /\ url = openshiftV4BaseUrl ocUtils +:+ "/" +:+ segment +:+ "/" +:+ bundle).
Proof.
  intros Hurl.
  destruct (exec reMajor (strip_v version)) as [major|] eqn:Hm;
    [|by rewrite ocBundleURL_no_major in Hurl].
  exists (to_number major).
  destruct (getOcBundleByOS K osType) as [bundle|] eqn:Hb.
  - pose proof (getOcBundleByOS_truthy K osType bundle Hb) as Ht. rewrite Hb in Ht.
    destruct latest.
    + rewrite (ocBundleURL_true K ocUtils version osType major Hm), Hb, Ht in Hurl.
      destruct (exec reBase (strip_v version)) as [b|] eqn:Hbase; [|discriminate].
      destruct (ocUtils !! ("oc" +:+ b)) as [p|] eqn:Hp; [|discriminate].
      exists p, bundle. unfold vMajor. rewrite Hm.
      split; [reflexivity|]. split; [reflexivity|]. split; [by exists b|].
      destruct (truthy (Some p)); [|discriminate].
      cbn [template] in Hurl.
      destruct (to_number major =? 3)%N eqn:H3.
      { left. apply N.eqb_eq in H3. split; [exact H3 | congruence]. }
      destruct (to_number major =? 4)%N eqn:H4; [|discriminate].
      right. apply N.eqb_eq in H4. split; [exact H4 | congruence].
    + rewrite (ocBundleURL_false K ocUtils version osType major Hm), Hb, Ht in Hurl.
      exists (strip_v version), bundle. unfold vMajor. rewrite Hm.
      split; [reflexivity|]. split; [reflexivity|]. split; [reflexivity|].
      cbn [template] in Hurl.
      destruct (to_number major =? 3)%N eqn:H3.
      { left. apply N.eqb_eq in H3. split; [exact H3 | congruence]. }
      destruct (to_number major =? 4)%N eqn:H4; [|discriminate].
      right. apply N.eqb_eq in H4. split; [exact H4 | congruence].
  - exfalso. destruct latest.
    + rewrite (ocBundleURL_true K ocUtils version osType major Hm), Hb in Hurl.
      simpl in Hurl. by repeat case_match.
    + rewrite (ocBundleURL_false K ocUtils version osType major Hm), Hb in Hurl.
      simpl in Hurl. by repeat case_match.
Qed.

Lemma ocBundleURL_result_shape_witness :
  ocBundleURL Sim.constants Sim.ocUtils "v3.11.0" "Darwin" true
    = Some "https://mirror.example/v3/clients/3.11.154/macosx/oc.tar.gz"
  /\ exists (n : N) (segment bundle : string),
       vMajor (strip_v "v3.11.0") = Some n
       /\ getOcBundleByOS Sim.constants "Darwin" = Some bundle
       /\ (exists baseVersion, exec reBase (strip_v "v3.11.0") = Some baseVersion
                               /\ Sim.ocUtils !! ("oc" +:+ baseVersion) = Some segment)
       /\ (n = 3%N
           /\ "https://mirror.example/v3/clients/3.11.154/macosx/oc.tar.gz"
              = openshiftV3BaseUrl Sim.ocUtils +:+ "/" +:+ segment +:+ "/" +:+ bundle
           \/ n = 4%N
           /\ "https://mirror.example/v3/clients/3.11.154/macosx/oc.tar.gz"
              = openshiftV4BaseUrl Sim.ocUtils +:+ "/" +:+ segment +:+ "/" +:+ bundle).
Proof.
  split; [reflexivity|].
  apply (ocBundleURL_result_shape Sim.constants Sim.ocUtils "v3.11.0" "Darwin"
           "https://mirror.example/v3/clients/3.11.154/macosx/oc.tar.gz" true).
  reflexivity.
Defined.

(** X7: No URL is ever produced for an OS identifier other than Linux, Darwin
    and Windows_NT: neither for a version nor for the latest stable
    release; for those three [latestStable] always produces one. *)
Theorem unknown_os_never_resolves (K : Constants) (ocUtils : gmap string string)
    (osType : string) :
  (osType ∉ ["Linux"; "Darwin"; "Windows_NT"] ->
     latestStable K ocUtils osType = None
     /\ forall version latest, ocBundleURL K ocUtils version osType latest = None)
  /\ (osType ∈ ["Linux"; "Darwin"; "Windows_NT"] ->
     latestStable K ocUtils osType
     = Some (openshiftV4BaseUrl ocUtils +:+ "/" +:+ LATEST K +:+ "/"
             +:+ template (getOcBundleByOS K osType))).
Proof.
  split.
  - intros Hos. split; [by apply latestStable_unknown|].
    intros version latest.
    destruct (ocBundleURL K ocUtils version osType latest) as [url|] eqn:Hurl;
      [|reflexivity].
    destruct (ocBundleURL_some_bundle _ _ _ _ _ _ Hurl) as [b Hb].
    by rewrite (getOcBundleByOS_unknown K osType Hos) in Hb.
  - intros Hos. unfold latestStable.
    by rewrite (getOcBundleByOS_recognized K osType Hos).
Qed.

Lemma unknown_os_never_resolves_witness :
("FreeBSD" ∉ ["Linux"; "Darwin"; "Windows_NT"])
  /\ latestStable Sim.constants Sim.ocUtils "FreeBSD" = None
  /\ forall version latest,
       ocBundleURL Sim.constants Sim.ocUtils version "FreeBSD" latest = None.
Proof.
  assert ("FreeBSD" ∉ ["Linux"; "Darwin"; "Windows_NT"]) as Hos.
  { intros H. repeat (apply elem_of_cons in H as [H|H]; [discriminate|]).
    by apply elem_of_nil in H. }
  split; [exact Hos|].
  by apply (proj1 (unknown_os_never_resolves Sim.constants Sim.ocUtils "FreeBSD")).
Defined.

(** X28: A leading [v] makes no difference: for a non-empty version that does
    not itself start with [v], [ocBundleURL] gives the same result with and
    without the [v] in front. *)
Theorem ocBundleURL_v_prefix (K : Constants) (ocUtils : gmap string string)
    (version osType : string) (latest : bool) :
  version <> "" -> startsWith "v" version = false ->
  ocBundleURL K ocUtils (String "v" version) osType latest
  = ocBundleURL K ocUtils version osType latest.
Proof.
  intros Hne Hv. unfold ocBundleURL.
  assert (strip_v (String "v" version) = strip_v version) as ->.
  { unfold strip_v. by rewrite Hv. }
  by rewrite (is_empty_false _ Hne).
Qed.

Lemma ocBundleURL_v_prefix_witness :
  "3.11.0" <> ""
  /\ ocBundleURL Sim.constants Sim.ocUtils (String "v" "3.11.0") "Linux" true
     = ocBundleURL Sim.constants Sim.ocUtils "3.11.0" "Linux" true.
Proof.
  split; [discriminate|].
  apply (ocBundleURL_v_prefix Sim.constants Sim.ocUtils "3.11.0" "Linux" true);
    [discriminate | reflexivity].
Defined.

(** ** More on download and extraction *)

Lemma calls_Do {A : Type} (ag : agent) (c : call)
    (k : outcome (resp c) -> prog A) (w : world ag) :
  calls ag (Do c k) w = c :: calls ag (k (answer ag c w).1) (answer ag c w).2.
Proof.
  unfold calls. simpl. destruct (answer ag c w) as [r w1]. simpl.
  by destruct (run ag (k r) w1) as [[tr o] w2].
Qed.


(** X9: An archive that is already in the directory is not downloaded again:
    [curl] is not run, whatever happens later. *)
Theorem downloadAndExtract_cache_hit (L : Libs)
    (url downloadDir osType proxy : string) (ag : agent) (w w1 w2 : world ag) :
  url <> "" ->
  answer ag (Exist (path_normalize L downloadDir)) w = (Returned true, w1) ->
  answer ag (Exist (archivePathOf L url downloadDir)) w1 = (Returned true, w2) ->
  Forall no_download (calls ag (downloadAndExtract L url downloadDir osType proxy) w).
Proof.
  unfold archivePathOf, archiveOf. intros Hurl Hdir Hcached.
  unfold downloadAndExtract. rewrite (is_empty_false url Hurl).
  unfold mbind, prog_bind, perform. cbn [bind].
  rewrite calls_Do, Hdir. cbn [fst snd bind negb].
  rewrite calls_Do, Hcached. cbn [fst snd bind negb].
  repeat (constructor; [exact eq_refl|]).
  apply all_calls_run. fold (perform (UnzipArchive
    (archiveTypeOf L (last_part (split "/" url)))
    (path_join L (path_normalize L downloadDir) (last_part (split "/" url)))
    (path_normalize L downloadDir))).
  constructor; [exact eq_refl|]. intros [[]|msg]; cbn [bind]; [|constructor].
  constructor; [exact eq_refl|]. intros [[]|msg]; cbn [bind negb]; [| |constructor].
  - constructor; [exact eq_refl|]. intros [[]|msg]; constructor.
  - constructor.
Qed.

Lemma downloadAndExtract_cache_hit_witness :
  let w := Sim.with_files {[ "/work/.download"; "/work/.download/oc.zip" ]}
             (Sim.fresh ["oc.exe"]) in
  "https://mirror.example/windows/oc.zip" <> ""
  /\ Forall no_download
       (calls Sim.sim (downloadAndExtract Sim.libs "https://mirror.example/windows/oc.zip"
                         "/work/.download" "Windows_NT" "") w).
Proof.
  intros w. split; [discriminate|].
  apply (downloadAndExtract_cache_hit Sim.libs "https://mirror.example/windows/oc.zip"
           "/work/.download" "Windows_NT" "" Sim.sim w w w);
    [discriminate | reflexivity | reflexivity].
Defined.

(** X10: When [curl] fails, [downloadAndExtract] rejects with its error right
    away: nothing is extracted and no mode is set. *)
Theorem downloadAndExtract_download_failure (L : Libs)
    (url downloadDir osType proxy msg : string) (ag : agent)
    (w w1 w2 w3 : world ag) :
  url <> "" ->
  answer ag (Exist (path_normalize L downloadDir)) w = (Returned true, w1) ->
  answer ag (Exist (archivePathOf L url downloadDir)) w1 = (Returned false, w2) ->
  answer ag (ToolExec "curl" (curlArgs proxy (archivePathOf L url downloadDir) url)) w2
    = (Thrown msg, w3) ->
  run ag (downloadAndExtract L url downloadDir osType proxy) w
  = ([Exist (path_normalize L downloadDir);
      Exist (archivePathOf L url downloadDir);
      ToolExec "curl" (curlArgs proxy (archivePathOf L url downloadDir) url)],
     Thrown msg, w3).
Proof.
  unfold archivePathOf, archiveOf. intros Hurl Hdir Hcached Hcurl.
  unfold downloadAndExtract. rewrite (is_empty_false url Hurl).
  run_answer Hdir. run_answer Hcached. by run_answer Hcurl.
Qed.

(** X11: When the expected executable is not there after the extraction,
    [downloadAndExtract] returns nothing and sets no mode. *)
Theorem downloadAndExtract_missing_binary (L : Libs)
    (url downloadDir osType proxy : string) (ag : agent)
    (w w1 w2 w3 w4 w5 : world ag) (cached : bool) (tr : list call) :
  url <> "" ->
  answer ag (Exist (path_normalize L downloadDir)) w = (Returned true, w1) ->
  answer ag (Exist (archivePathOf L url downloadDir)) w1 = (Returned cached, w2) ->
  run ag (if negb cached
          then perform (ToolExec "curl"
                          (curlArgs proxy (archivePathOf L url downloadDir) url))
          else Ret tt) w2 = (tr, Returned tt, w3) ->
  answer ag (UnzipArchive (archiveTypeOf L (archiveOf url))
                          (archivePathOf L url downloadDir)
                          (path_normalize L downloadDir)) w3 = (Returned tt, w4) ->
  answer ag (Exist (ocBinaryPath L downloadDir osType)) w4 = (Returned false, w5) ->
  run ag (downloadAndExtract L url downloadDir osType proxy) w
  = ([Exist (path_normalize L downloadDir);
      Exist (archivePathOf L url downloadDir)]
     ++ tr
     ++ [UnzipArchive (archiveTypeOf L (archiveOf url))
                      (archivePathOf L url downloadDir)
                      (path_normalize L downloadDir);
         Exist (ocBinaryPath L downloadDir osType)],
     Returned None, w5).
Proof.
  unfold archivePathOf, ocBinaryPath, archiveOf.
  intros Hurl Hdir Hcached Hcurl Hunzip Hfound.
  unfold downloadAndExtract. rewrite (is_empty_false url Hurl).
  run_answer Hdir. run_answer Hcached.
  destruct cached; cbn [negb] in Hcurl |- *.
  - injection Hcurl as <- <-.
    run_answer Hunzip. by run_answer Hfound.
  - unfold perform in Hcurl. cbn [run] in Hcurl.
    destruct (answer ag (ToolExec _ _) w2) as [[[]|msg] w3'] eqn:Hc;
      cbn [run] in Hcurl; [|discriminate].
    injection Hcurl as <- <-.
    run_answer Hc. run_answer Hunzip. by run_answer Hfound.
Qed.

Lemma downloadAndExtract_download_failure_witness :
  let w := Sim.fresh ["oc"] in
  "https://mirror.example/linux/oc.tar.gz" <> ""
  /\ run Sim.offline (downloadAndExtract Sim.libs "https://mirror.example/linux/oc.tar.gz"
                        "/work/.download" "Linux" "proxy:3128") w
     = ([Exist "/work/.download";
         Exist "/work/.download/oc.tar.gz";
         ToolExec "curl" ["-s"; "-x"; "proxy:3128"; "-L"; "-o";
                          "/work/.download/oc.tar.gz";
                          "https://mirror.example/linux/oc.tar.gz"]],
        Thrown "curl: (6) Could not resolve host", w).
Proof.
  intros w. split; [discriminate|].
  apply (downloadAndExtract_download_failure Sim.libs
           "https://mirror.example/linux/oc.tar.gz" "/work/.download" "Linux"
           "proxy:3128" "curl: (6) Could not resolve host" Sim.offline w w w w);
    [discriminate | reflexivity ..].
Defined.

Lemma downloadAndExtract_missing_binary_witness :
  let url := "https://mirror.example/linux/oc.tar.gz" in
  let w := Sim.fresh ["README.md"] in
  let w3 := (Sim.respond (ToolExec "curl"
               ["-s"; "-L"; "-o"; "/work/.download/oc.tar.gz"; url]) w).2 in
  let w4 := (Sim.respond (UnzipArchive ".tar.gz" "/work/.download/oc.tar.gz"
               "/work/.download") w3).2 in
  url <> ""
  /\ run Sim.sim (downloadAndExtract Sim.libs url "/work/.download" "Linux" "") w
     = ([Exist "/work/.download"; Exist "/work/.download/oc.tar.gz"]
        ++ [ToolExec "curl" ["-s"; "-L"; "-o"; "/work/.download/oc.tar.gz"; url]]
        ++ [UnzipArchive ".tar.gz" "/work/.download/oc.tar.gz" "/work/.download";
            Exist "/work/.download/oc"],
        Returned None, w4).
Proof.
  intros url w w3 w4. split; [discriminate|].
  apply (downloadAndExtract_missing_binary Sim.libs url "/work/.download"
           "Linux" "" Sim.sim w w w w3 w4 w4 false
           [ToolExec "curl" ["-s"; "-L"; "-o"; "/work/.download/oc.tar.gz"; url]]);
    [discriminate | reflexivity ..].
Defined.

Lemma downloadAndExtract_ends (L : Libs) (url downloadDir osType proxy : string) :
  ends (fun tr o => forall p, o = Returned (Some p) ->
          p = ocBinaryPath L downloadDir osType
          /\ exists tr0, tr = tr0 ++ [Exist p; ChmodSync p "0755"])
       (downloadAndExtract L url downloadDir osType proxy).
Proof.
  unfold ocBinaryPath, downloadAndExtract. ends_steps; intros p; try discriminate;
    intros [= <-]; (split; [reflexivity|]);
    first [by eexists [_; _; _; _] | by eexists [_; _; _]].
Qed.

(** X12: Whenever [downloadAndExtract] returns a path, on whatever agent, it
    is the path of the expected executable in the normalized directory,
    and the last two calls were the check that it exists and the change of
    its mode to 0755. *)
Theorem downloadAndExtract_returned_path (L : Libs)
    (url downloadDir osType proxy : string) (ag : agent) (w w' : world ag)
    (tr : list call) (p : string) :
  run ag (downloadAndExtract L url downloadDir osType proxy) w
    = (tr, Returned (Some p), w') ->
  p = ocBinaryPath L downloadDir osType
  /\ exists tr0, tr = tr0 ++ [Exist p; ChmodSync p "0755"].
Proof.
  intros Hrun.
  pose proof (ends_run_eq _ _ ag w w' tr _
                (downloadAndExtract_ends L url downloadDir osType proxy) Hrun) as H.
  by apply H.
Qed.

Lemma downloadAndExtract_returned_path_witness :
  let p := downloadAndExtract Sim.libs "https://mirror.example/linux/oc.tar.gz"
             "/work/.download" "Linux" "" in
  let w := Sim.fresh ["oc"] in
  ending Sim.sim p w = Returned (Some "/work/.download/oc")
  /\ "/work/.download/oc" = ocBinaryPath Sim.libs "/work/.download" "Linux"
  /\ exists tr0, calls Sim.sim p w
                 = tr0 ++ [Exist "/work/.download/oc";
                           ChmodSync "/work/.download/oc" "0755"].
Proof.
  intros p w. split; [reflexivity|].
  apply (downloadAndExtract_returned_path Sim.libs
           "https://mirror.example/linux/oc.tar.gz" "/work/.download" "Linux" ""
           Sim.sim w (run Sim.sim p w).2 (calls Sim.sim p w) "/work/.download/oc").
  reflexivity.
Defined.

(** *** The archive name *)

Lemma split_chars_no_sep (c : ascii) (l : list ascii) :
  c ∉ l -> split_chars c l = [l].
Proof.
  induction l as [|a l IH]; intros Hc; [reflexivity|]. simpl.
  apply not_elem_of_cons in Hc as [Hne Hc].
  destruct (Ascii.eqb a c) eqn:Ha; [apply Ascii.eqb_eq in Ha; congruence|].
  by rewrite (IH Hc).
Qed.

Lemma split_chars_last_piece (c : ascii) (pre name : list ascii) :
  c ∉ name ->
  exists p ps, split_chars c (pre ++ c :: name) = p :: ps ++ [name].
Proof.
  intros Hc. induction pre as [|a pre (p & ps & IH)]; simpl.
  - rewrite Ascii.eqb_refl, (split_chars_no_sep c name Hc). by exists [], [].
  - rewrite IH. destruct (Ascii.eqb a c).
    + by exists [], (p :: ps).
    + by exists (a :: p), ps.
Qed.

(** X13: The archive name is the text after the last slash of the URL. *)
Theorem archiveOf_last_segment (base name : string) :
  ("/"%char ∉ chars name) ->
  archiveOf (base +:+ "/" +:+ name) = name.
Proof.
  intros Hc. unfold archiveOf, last_part, split.
  rewrite chars_app. change (chars ("/" +:+ name)) with ("/"%char :: chars name).
  destruct (split_chars_last_piece "/" (chars base) (chars name) Hc) as (p & ps & ->).
  rewrite fmap_cons, fmap_app.
  change (str p :: (str <$> ps) ++ (str <$> [chars name]))
    with ((str p :: (str <$> ps)) ++ [str (chars name)]).
  by rewrite List.last_last, str_chars.
Qed.

Lemma archiveOf_last_segment_witness :
  ("/"%char ∉ chars "oc.tar.gz")
  /\ archiveOf ("https://mirror.example/v4/clients/oc/latest/linux" +:+ "/" +:+ "oc.tar.gz")
     = "oc.tar.gz".
Proof.
  assert ("/"%char ∉ chars "oc.tar.gz") as Hc.
  { intros H. repeat (apply elem_of_cons in H as [H|H]; [discriminate|]).
    by apply elem_of_nil in H. }
  split; [exact Hc|].
  by apply (archiveOf_last_segment "https://mirror.example/v4/clients/oc/latest/linux"
              "oc.tar.gz").
Defined.

(** ** More on installation *)

Lemma probe_count_app (tr1 tr2 : list call) :
  probe_count (tr1 ++ tr2) = probe_count tr1 + probe_count tr2.
Proof. unfold probe_count. by rewrite List.filter_app, length_app. Qed.

Lemma probe_count_quiet (tr : list call) :
  Forall no_probe tr -> probe_count tr = 0.
Proof.
  unfold probe_count. induction 1 as [|c tr Hc _ IH]; [reflexivity|].
  simpl. unfold no_probe in Hc. by rewrite Hc.
Qed.

Lemma calls_bind {A B : Type} (ag : agent) (p : prog A) (f : A -> prog B)
    (w : world ag) :
  calls ag (p ≫= f) w =
    calls ag p w ++
    match ending ag p w with
    | Returned a => calls ag (f a) (run ag p w).2
    | Thrown _ => []
    end.
Proof.
  unfold calls, ending. rewrite run_bind.
  destruct (run ag p w) as [[tr1 [a|msg]] w1]; simpl; [|by rewrite app_nil_r].
  by destruct (run ag (f a) w1) as [[tr2 o] w2].
Qed.

Lemma probe_count_bind_quiet {A B : Type} (ag : agent) (p : prog A)
    (f : A -> prog B) (n : nat) (w : world ag) :
  all_calls no_probe p ->
  (forall a w1, probe_count (calls ag (f a) w1) <= n) ->
  probe_count (calls ag (p ≫= f) w) <= n.
Proof.
  intros Hp Hf. rewrite calls_bind, probe_count_app.
  rewrite (probe_count_quiet _ (all_calls_run _ p ag w Hp)).
  destruct (ending ag p w) as [a|msg]; [apply Hf | unfold probe_count; simpl; lia].
Qed.

Lemma installFrom_probe_count (L : Libs) (url : option string)
    (downloadDir osType proxy : string) (ag : agent) (w : world ag) :
  probe_count (calls ag (installFrom L url downloadDir osType proxy) w) = 0.
Proof. apply probe_count_quiet, all_calls_run, installFrom_no_probe. Qed.

(** X14: Whatever the arguments and the agent, [installOc] sends at most one
    HEAD request. *)
Theorem installOc_at_most_one_probe (K : Constants) (ocUtils : gmap string string)
    (L : Libs) (env : gmap string string)
    (downloadVersion osType proxy : string) (useLocalOc : bool)
    (ag : agent) (w : world ag) :
  probe_count (calls ag (installOc K ocUtils L env downloadVersion osType
                           useLocalOc proxy) w) <= 1.
Proof.
  assert (forall w1, probe_count (calls ag (installRemote K ocUtils L env
                        downloadVersion osType proxy) w1) <= 1) as Hremote.
  { intros w1. unfold installRemote.
    destruct (if is_empty downloadVersion then latestStable K ocUtils osType
              else Some downloadVersion) as [v|]; [|unfold probe_count, calls; simpl; lia].
    apply probe_count_bind_quiet; [apply createDownloadDir_no_probe|].
    intros _ w2. destruct (isWebUri L v).
    - change (probe_count (calls ag (installFrom L (Some v) (downloadDirOf env)
                                       osType proxy) w2) <= 1).
      rewrite installFrom_probe_count. lia.
    - unfold mbind, prog_bind, perform. cbn [bind].
      rewrite calls_Do.
      change (probe_count (FetchHead (ocBundleURL K ocUtils v osType false) :: ?tr))
        with (S (probe_count tr)).
      apply le_n_S.
      destruct (answer ag (FetchHead _) w2) as [[ok|msg] w3]; cbn [fst snd bind];
        [|unfold probe_count, calls; simpl; lia].
      destruct ok; cbn [negb bind]; rewrite installFrom_probe_count; lia. }
  unfold installOc. destruct useLocalOc; [|apply Hremote].
  apply probe_count_bind_quiet; [apply getLocalOcPath_no_probe|].
  intros p w1. destruct (truthy p); [unfold probe_count, calls; simpl; lia | apply Hremote].
Qed.

(** X15: A version that is itself a web URI is taken as the download URL: no
    HEAD request is sent, on any agent. *)
Theorem installOc_web_uri_no_probe (K : Constants) (ocUtils : gmap string string)
    (L : Libs) (env : gmap string string)
    (downloadVersion osType proxy : string) (useLocalOc : bool)
    (ag : agent) (w : world ag) :
  downloadVersion <> "" ->
  isWebUri L downloadVersion = true ->
  Forall no_probe (calls ag (installOc K ocUtils L env downloadVersion osType
                               useLocalOc proxy) w).
Proof.
  intros Hne Hweb. apply all_calls_run.
  assert (all_calls no_probe
            (installRemote K ocUtils L env downloadVersion osType proxy)) as Hremote.
  { unfold installRemote. rewrite (is_empty_false _ Hne), Hweb.
    apply all_calls_bind; [apply createDownloadDir_no_probe|].
    intros _. apply installFrom_no_probe. }
  unfold installOc. destruct useLocalOc; [|exact Hremote].
  apply all_calls_bind; [apply getLocalOcPath_no_probe|].
  intros p. destruct (truthy p); [constructor | exact Hremote].
Qed.

Lemma installOc_web_uri_no_probe_witness :
  "https://example.org/oc.zip" <> ""
  /\ Forall no_probe
       (calls Sim.sim (installOc Sim.constants Sim.ocUtils Sim.libs Sim.env
                         "https://example.org/oc.zip" "Darwin" true "")
              (Sim.fresh ["oc"])).
Proof.
  split; [discriminate|].
  apply (installOc_web_uri_no_probe Sim.constants Sim.ocUtils Sim.libs Sim.env
           "https://example.org/oc.zip" "Darwin" "" true Sim.sim (Sim.fresh ["oc"]));
    [discriminate | reflexivity].
Defined.

(** X16: Without a version and without a bundle for the OS, [installOc]
    rejects with "Unable to determine latest oc download URL" right after
    the lookup of a local [oc], if any: no directory is created and
    nothing is fetched. *)
Theorem installOc_no_latest_url (K : Constants) (ocUtils : gmap string string)
    (L : Libs) (env : gmap string string) (osType proxy : string)
    (useLocalOc : bool) (ag : agent) (w w0 : world ag) (tr0 : list call)
    (localOcPath : option string) :
  (osType ∉ ["Linux"; "Darwin"; "Windows_NT"]) ->
  run ag (if useLocalOc then getLocalOcPath (Some "") else Ret None) w
    = (tr0, Returned localOcPath, w0) ->
  truthy localOcPath = false ->
  run ag (installOc K ocUtils L env "" osType useLocalOc proxy) w
  = (tr0, Thrown "Unable to determine latest oc download URL", w0).
Proof.
  intros Hos Hlocal Hfalsy.
  assert (forall w1, run ag (installRemote K ocUtils L env "" osType proxy) w1
                     = ([], Thrown "Unable to determine latest oc download URL", w1))
    as Hremote.
  { intros w1. unfold installRemote. cbn [is_empty].
    by rewrite (latestStable_unknown K ocUtils osType Hos). }
  unfold installOc. destruct useLocalOc.
  - rewrite run_bind, Hlocal, Hfalsy, Hremote. by rewrite app_nil_r.
  - injection Hlocal as <- _ <-. apply Hremote.
Qed.

Lemma installOc_no_latest_url_witness :
  ("Plan9" ∉ ["Linux"; "Darwin"; "Windows_NT"])
  /\ run Sim.sim (installOc Sim.constants Sim.ocUtils Sim.libs Sim.env
                    "" "Plan9" true "") (Sim.fresh ["oc"])
     = ([Which "oc" true], Thrown "Unable to determine latest oc download URL",
        Sim.fresh ["oc"]).
Proof.
  assert ("Plan9" ∉ ["Linux"; "Darwin"; "Windows_NT"]) as Hos.
  { intros H. repeat (apply elem_of_cons in H as [H|H]; [discriminate|]).
    by apply elem_of_nil in H. }
  split; [exact Hos|].
  by apply (installOc_no_latest_url Sim.constants Sim.ocUtils Sim.libs Sim.env
              "Plan9" "" true Sim.sim (Sim.fresh ["oc"]) (Sim.fresh ["oc"])
              [Which "oc" true] None).
Defined.

(** X17: When a local [oc] is accepted, [installOc] returns its path and makes
    no call beyond the lookup: no directory, no request, no download. *)
Theorem installOc_local_found (K : Constants) (ocUtils : gmap string string)
    (L : Libs) (env : gmap string string)
    (downloadVersion osType proxy ocPath : string)
    (ag : agent) (w w0 : world ag) (tr0 : list call) :
  run ag (getLocalOcPath (Some downloadVersion)) w = (tr0, Returned (Some ocPath), w0) ->
  ocPath <> "" ->
  run ag (installOc K ocUtils L env downloadVersion osType true proxy) w
  = (tr0, Returned ocPath, w0).
Proof.
  intros Hlocal Hne. unfold installOc.
  rewrite run_bind, Hlocal. simpl. rewrite (is_empty_false _ Hne). simpl.
  by rewrite app_nil_r.
Qed.

Lemma installOc_local_found_witness :
  let w := {| Sim.files := ∅; Sim.served := ∅; Sim.archive := [];
              Sim.modes := ∅; Sim.vars := ∅;
              Sim.localOc := Some "/usr/local/bin/oc";
              Sim.ocOutput := Some {| stdout := Some "Client Version: v4.1.18";
                                      stderr := None |} |} in
  "/usr/local/bin/oc" <> ""
  /\ run Sim.sim (installOc Sim.constants Sim.ocUtils Sim.libs Sim.env
                    "V4.1.18" "Linux" true "") w
     = ([Which "oc" true;
         ExecOcSync "/usr/local/bin/oc" "version --short=true --client=true"],
        Returned "/usr/local/bin/oc", w).
Proof.
  intros w. split; [discriminate|].
  apply (installOc_local_found Sim.constants Sim.ocUtils Sim.libs Sim.env
           "V4.1.18" "Linux" "" "/usr/local/bin/oc" Sim.sim w w);
    [reflexivity | discriminate].
Defined.

Lemma installFrom_returned (L : Libs) (url : option string)
    (downloadDir osType proxy : string) (ag : agent) (w w' : world ag)
    (tr : list call) (p : string) :
  run ag (installFrom L url downloadDir osType proxy) w = (tr, Returned p, w') ->
  p = ocBinaryPath L downloadDir osType
  /\ exists tr0, tr = tr0 ++ [Exist p; ChmodSync p "0755"].
Proof.
  unfold installFrom. destruct url as [url|]; [|discriminate].
  rewrite run_bind.
  destruct (run ag (downloadAndExtract L url downloadDir osType proxy) w)
    as [[tr1 [[q|]|msg]] w1] eqn:Hrun; [|discriminate ..].
  cbn [run]. intros [= <- <- <-]. rewrite app_nil_r.
  pose proof (ends_run_eq _ _ ag w w1 tr1 _
                (downloadAndExtract_ends L url downloadDir osType proxy) Hrun) as H.
  by apply H.
Qed.

(** X25: Without the local lookup, every path [installOc] returns is the path
    of the expected executable in the download directory, and the last two
    calls of the run were the check that it exists and the change of its
    mode to 0755. *)
Theorem installOc_returned_path (K : Constants) (ocUtils : gmap string string)
    (L : Libs) (env : gmap string string)
    (downloadVersion osType proxy : string)
    (ag : agent) (w w' : world ag) (tr : list call) (p : string) :
  run ag (installOc K ocUtils L env downloadVersion osType false proxy) w
    = (tr, Returned p, w') ->
  p = ocBinaryPath L (downloadDirOf env) osType
  /\ exists tr0, tr = tr0 ++ [Exist p; ChmodSync p "0755"].
Proof.
  unfold installOc, installRemote.
  destruct (if is_empty downloadVersion then latestStable K ocUtils osType
            else Some downloadVersion) as [v|]; [|discriminate].
  rewrite run_bind.
  destruct (run ag (createDownloadDir env) w) as [[tr1 [[]|msg]] w1];
    [|discriminate].
  rewrite run_bind.
  destruct (run ag _ w1) as [[tr2 [url|msg]] w2]; [|discriminate].
  destruct (run ag (installFrom L url (downloadDirOf env) osType proxy) w2)
    as [[tr3 o] w3] eqn:Hfrom.
  intros [= <- -> <-].
  destruct (installFrom_returned _ _ _ _ _ _ _ _ _ _ Hfrom) as (Hp & tr0 & ->).
  split; [exact Hp|]. exists (tr1 ++ tr2 ++ tr0). by rewrite <- !app_assoc.
Qed.

Lemma installOc_returned_path_witness :
  let p := installOc Sim.constants Sim.ocUtils Sim.libs Sim.env
             "4.1.18" "Linux" false "" in
  let w := Sim.fresh ["oc"] in
  ending Sim.sim p w = Returned "/work/.download/oc"
  /\ "/work/.download/oc" = ocBinaryPath Sim.libs (downloadDirOf Sim.env) "Linux"
  /\ exists tr0, calls Sim.sim p w
                 = tr0 ++ [Exist "/work/.download/oc";
                           ChmodSync "/work/.download/oc" "0755"].
Proof.
  intros p w. split; [reflexivity|].
  apply (installOc_returned_path Sim.constants Sim.ocUtils Sim.libs Sim.env
           "4.1.18" "Linux" "" Sim.sim w (run Sim.sim p w).2 (calls Sim.sim p w)
           "/work/.download/oc").
  reflexivity.
Defined.

(** X26: When the HEAD request is answered but not OK and [ocBundleURL] has
    no URL with the latest flag either, [installOc] rejects with "Unable to
    determine oc download URL." right after the request: nothing is
    downloaded. *)
Theorem installOc_unresolved (K : Constants) (ocUtils : gmap string string)
    (L : Libs) (env : gmap string string)
    (downloadVersion osType proxy : string) (useLocalOc : bool)
    (ag : agent) (w w0 w1 w2 : world ag) (tr0 tr1 : list call)
    (localOcPath : option string) :
  downloadVersion <> "" ->
  isWebUri L downloadVersion = false ->
  run ag (if useLocalOc then getLocalOcPath (Some downloadVersion) else Ret None) w
    = (tr0, Returned localOcPath, w0) ->
  truthy localOcPath = false ->
  run ag (createDownloadDir env) w0 = (tr1, Returned tt, w1) ->
  answer ag (FetchHead (ocBundleURL K ocUtils downloadVersion osType false)) w1
    = (Returned false, w2) ->
  ocBundleURL K ocUtils downloadVersion osType true = None ->
  run ag (installOc K ocUtils L env downloadVersion osType useLocalOc proxy) w
  = (tr0 ++ tr1 ++ [FetchHead (ocBundleURL K ocUtils downloadVersion osType false)],
     Thrown "Unable to determine oc download URL.", w2).
Proof.
  intros Hne Hweb Hlocal Hfalsy Hdir Hprobe Hnone.
  assert (run ag (installRemote K ocUtils L env downloadVersion osType proxy) w0
          = (tr1 ++ [FetchHead (ocBundleURL K ocUtils downloadVersion osType false)],
             Thrown "Unable to determine oc download URL.", w2)) as Hremote.
  { unfold installRemote. rewrite (is_empty_false _ Hne), Hweb.
    rewrite run_bind, Hdir, run_bind.
    unfold mbind at 1, prog_bind, perform. cbn [run bind].
    rewrite Hprobe. cbn [run bind negb]. by rewrite Hnone. }
  unfold installOc. destruct useLocalOc.
  - by rewrite run_bind, Hlocal, Hfalsy, Hremote.
  - injection Hlocal as <- _ <-. by rewrite Hremote.
Qed.

Lemma installOc_unresolved_witness :
  let w := Sim.fresh ["oc"] in
  "3.17.0" <> ""
  /\ ocBundleURL Sim.constants Sim.ocUtils "3.17.0" "Linux" true = None
  /\ run Sim.sim (installOc Sim.constants Sim.ocUtils Sim.libs Sim.env
                    "3.17.0" "Linux" false "") w
     = ([] ++ [ExistsSync "/work/.download"]
        ++ [FetchHead (ocBundleURL Sim.constants Sim.ocUtils "3.17.0" "Linux" false)],
        Thrown "Unable to determine oc download URL.", w).
Proof.
  intros w. split; [discriminate|]. split; [reflexivity|].
  apply (installOc_unresolved Sim.constants Sim.ocUtils Sim.libs Sim.env
           "3.17.0" "Linux" "" false Sim.sim w w w w [] [ExistsSync "/work/.download"]
           None);
    [discriminate | reflexivity ..].
Defined.

(** X27: [installOc] creates the download directory exactly when it is not
    there: [mkdirP] follows the existence check if and only if the check
    answers false. *)
Theorem createDownloadDir_calls (env : gmap string string) (ag : agent)
    (w w1 : world ag) (dirExists : bool) :
  answer ag (ExistsSync (downloadDirOf env)) w = (Returned dirExists, w1) ->
  calls ag (createDownloadDir env) w
  = ExistsSync (downloadDirOf env)
    :: (if dirExists then [] else [MkdirP (downloadDirOf env)]).
Proof.
  intros Hexists. unfold createDownloadDir, mbind, prog_bind, perform. cbn [bind].
  rewrite calls_Do, Hexists. cbn [fst snd bind]. f_equal.
  destruct dirExists; cbn [negb]; [reflexivity|].
  rewrite calls_Do. f_equal.
  by destruct (answer ag (MkdirP (downloadDirOf env)) w1) as [[[]|msg] w2].
Qed.

Lemma createDownloadDir_calls_witness :
  let w := Sim.with_files ∅ (Sim.fresh []) in
  calls Sim.sim (createDownloadDir Sim.env) w
  = [ExistsSync "/work/.download"; MkdirP "/work/.download"].
Proof.
  intros w.
  apply (createDownloadDir_calls Sim.env Sim.sim w w false). reflexivity.
Defined.

(** ** The local [oc] *)

Lemma rmatch_seq (r1 r2 : regex) (s rest : list ascii) :
  In rest (rmatch (RSeq r1 r2) s) ->
  exists s1, In s1 (rmatch r1 s) /\ In rest (rmatch r2 s1).
Proof. simpl. rewrite in_flat_map. tauto. Qed.

Lemma rmatch_char_sound (c : ascii) (s rest : list ascii) :
  In rest (rmatch (RChar c) s) -> s = c :: rest.
Proof.
  intros H. destruct (one_suffix _ _ _ H) as (a & Ha & ->).
  by apply Ascii.eqb_eq in Ha as ->.
Qed.

Lemma rmatch_any_sound (s rest : list ascii) :
  In rest (rmatch RAny s) ->
  exists a, is_line_terminator a = false /\ s = a :: rest.
Proof.
  intros H. destruct (one_suffix _ _ _ H) as (a & Ha & ->).
  exists a. split; [by destruct (is_line_terminator a) | reflexivity].
Qed.

Lemma rmatch_reVersion_sound (s rest : list ascii) :
  In rest (rmatch reVersion s) ->
  exists (d1 d2 d3 : list ascii) (a b : ascii),
    s = ("v"%char :: d1 ++ a :: d2 ++ b :: d3) ++ rest
    /\ (d1 <> [] /\ digits d1) /\ (d2 <> [] /\ digits d2) /\ (d3 <> [] /\ digits d3)
    /\ is_line_terminator a = false /\ is_line_terminator b = false.
Proof.
  unfold reVersion. intros H.
  apply rmatch_seq in H as (s1 & Hv & H). apply rmatch_char_sound in Hv as ->.
  apply rmatch_seq in H as (s2 & H1 & H).
  apply plus_digit_sound in H1 as (d1 & -> & Hd1).
  apply rmatch_seq in H as (s3 & Ha & H).
  apply rmatch_any_sound in Ha as (a & Ha & ->).
  apply rmatch_seq in H as (s4 & H2 & H).
  apply plus_digit_sound in H2 as (d2 & -> & Hd2).
  apply rmatch_seq in H as (s5 & Hb & H).
  apply rmatch_any_sound in Hb as (b & Hb & ->).
  apply plus_digit_sound in H as (d3 & -> & Hd3).
  exists d1, d2, d3, a, b. repeat split; try tauto.
  simpl. by rewrite <- !app_assoc, <- !app_comm_cons, <- !app_assoc.
Qed.

Lemma exec_reVersion_starts_with_v (s v : string) :
  exec reVersion s = Some v -> exists v', v = String "v" v'.
Proof.
  unfold exec. destruct (exec_chars reVersion (chars s)) as [m|] eqn:Hm; [|discriminate].
  intros [= <-].
  destruct (exec_chars_sound _ _ _ Hm) as (pre & rest & _ & Hin).
  destruct (rmatch_reVersion_sound _ _ Hin) as (d1 & d2 & d3 & a & b & Heq & _).
  apply app_inv_tail in Heq as ->. by eexists.
Qed.

(** X18: What [getOcVersion] takes for a version in the output of [oc]: a [v],
    a number, any one character, a number, any one character and a number.
    The dots of the pattern are not escaped, so the two separators need not
    be dots. *)
Theorem reVersion_match_shape (s v : string) :
  exec reVersion s = Some v ->
  exists (d1 d2 d3 : string) (a b : ascii),
    v = "v" +:+ d1 +:+ String a (d2 +:+ String b d3)
    /\ number d1 /\ number d2 /\ number d3
    /\ is_line_terminator a = false /\ is_line_terminator b = false.
Proof.
  unfold exec. destruct (exec_chars reVersion (chars s)) as [m|] eqn:Hm; [|discriminate].
  intros [= <-].
  destruct (exec_chars_sound _ _ _ Hm) as (pre & rest & _ & Hin).
  destruct (rmatch_reVersion_sound _ _ Hin)
    as (d1 & d2 & d3 & a & b & Heq & [Hn1 Hd1] & [Hn2 Hd2] & [Hn3 Hd3] & Ha & Hb).
  apply app_inv_tail in Heq as ->.
  exists (str d1), (str d2), (str d3), a, b.
  assert (forall d, d <> [] -> digits d -> number (str d)) as Hnum.
  { intros d Hne Hd. split; [|by rewrite chars_str].
    intros Hempty. apply Hne. by rewrite <- (chars_str d), Hempty. }
  repeat split; auto; try (by apply Hnum).
  change ("v"%char :: d1 ++ a :: d2 ++ b :: d3)
    with (["v"%char] ++ d1 ++ [a] ++ d2 ++ [b] ++ d3).
  by rewrite !str_app.
Qed.

Lemma reVersion_match_shape_witness :
  exec reVersion "oc v3x11y7 build" = Some "v3x11y7"
  /\ exists (d1 d2 d3 : string) (a b : ascii),
       "v3x11y7" = "v" +:+ d1 +:+ String a (d2 +:+ String b d3)
       /\ number d1 /\ number d2 /\ number d3
       /\ is_line_terminator a = false /\ is_line_terminator b = false.
Proof.
  split; [reflexivity|].
  apply (reVersion_match_shape "oc v3x11y7 build" "v3x11y7"). reflexivity.
Defined.

(** X19: [getOcVersion] runs [oc] once, and a second time with the plain
    [version] command exactly when the first run gave no result or wrote
    to its error stream. *)
Theorem getOcVersion_fallback (ocPath : string) (ag : agent) (w w1 : world ag)
    (r : option IExecSyncResult) :
  answer ag (ExecOcSync ocPath "version --short=true --client=true") w
    = (Returned r, w1) ->
  calls ag (getOcVersion ocPath) w
  = ExecOcSync ocPath "version --short=true --client=true"
    :: (if match r with
           | Some result => truthy (stderr result)
           | None => true
           end
        then [ExecOcSync ocPath "version"] else []).
Proof.
  intros Hfirst. unfold getOcVersion, mbind, prog_bind, perform. cbn [bind].
  rewrite calls_Do, Hfirst. cbn [fst snd bind]. f_equal.
  destruct r as [result|]; [destruct (truthy (stderr result))|]; cbn [bind].
  - rewrite calls_Do. f_equal.
    destruct (answer ag (ExecOcSync ocPath "version") w1) as [[[r2|]|msg] w2];
      cbn [fst snd bind]; [destruct (negb (truthy (stdout r2)))| |]; reflexivity.
  - by destruct (negb (truthy (stdout result))).
  - rewrite calls_Do. f_equal.
    destruct (answer ag (ExecOcSync ocPath "version") w1) as [[[r2|]|msg] w2];
      cbn [fst snd bind]; [destruct (negb (truthy (stdout r2)))| |]; reflexivity.
Qed.

Lemma getOcVersion_fallback_witness :
  let w := {| Sim.files := ∅; Sim.served := ∅; Sim.archive := [];
              Sim.modes := ∅; Sim.vars := ∅;
              Sim.localOc := Some "/usr/bin/oc";
              Sim.ocOutput := Some {| stdout := Some "oc v3.11.0";
                                      stderr := Some "unknown flag" |} |} in
  calls Sim.sim (getOcVersion "/usr/bin/oc") w
  = [ExecOcSync "/usr/bin/oc" "version --short=true --client=true";
     ExecOcSync "/usr/bin/oc" "version"].
Proof.
  intros w.
  apply (getOcVersion_fallback "/usr/bin/oc" Sim.sim w w
           (Some {| stdout := Some "oc v3.11.0"; stderr := Some "unknown flag" |})).
  reflexivity.
Defined.

Lemma lower_char_v (a : ascii) :
  lower_char a = "v"%char -> a = "v"%char \/ a = "V"%char.
Proof.
  destruct a as [[] [] [] [] [] [] [] []]; vm_compute; intros H;
    first [discriminate H | by left | by right].
Qed.

Lemma accepted_version_starts_with_v (s version : string) :
  negb (truthy (exec reVersion s))
  || negb (String.eqb (toLowerCase (template (exec reVersion s)))
                      (toLowerCase version)) = false ->
  startsWith "v" version = true \/ startsWith "V" version = true.
Proof.
  destruct (exec reVersion s) as [v|] eqn:Hv; [|discriminate].
  destruct (exec_reVersion_starts_with_v _ _ Hv) as [v' ->].
  intros H. apply orb_false_elim in H as [_ H].
  apply negb_false_iff, String.eqb_eq in H.
  destruct version as [|c version]; [discriminate|].
  change (String (lower_char "v") (toLowerCase v')
          = String (lower_char c) (toLowerCase version)) in H.
  injection H as Hc _. symmetry in Hc.
  destruct (lower_char_v c Hc) as [-> | ->]; [by left | by right].
Qed.

(** X20: A local [oc] is only ever accepted for a requested version that
    starts with [v] or [V]: the version read from [oc] always starts with
    [v], and the two are compared whole, up to letter case. *)
Theorem getLocalOcPath_version_needs_v (version ocPath : string) (ag : agent)
    (w w1 : world ag) (tr : list call) :
  run ag (getLocalOcPath (Some version)) w = (tr, Returned (Some ocPath), w1) ->
  version <> "" -> ocPath <> "" ->
  startsWith "v" version = true \/ startsWith "V" version = true.
Proof.
  intros Hrun Hversion HocPath.
  refine (ends_run_eq (fun _ o => o = Returned (Some ocPath) ->
            startsWith "v" version = true \/ startsWith "V" version = true)
            _ ag w w1 tr _ _ Hrun eq_refl).
  unfold getLocalOcPath, getOcVersion. ends_steps; try discriminate;
    cbn [template] in *;
    try (intros _; eapply accepted_version_starts_with_v; eassumption).
  intros [= ->]. exfalso.
  cbn [truthy] in *. rewrite (is_empty_false _ Hversion), (is_empty_false _ HocPath) in *.
  discriminate.
Qed.

Lemma getLocalOcPath_version_needs_v_witness :
  let w := {| Sim.files := ∅; Sim.served := ∅; Sim.archive := [];
              Sim.modes := ∅; Sim.vars := ∅;
              Sim.localOc := Some "/usr/bin/oc";
              Sim.ocOutput := Some {| stdout := Some "Client Version: v4.1.18";
                                      stderr := None |} |} in
  run Sim.sim (getLocalOcPath (Some "V4.1.18")) w
    = ([Which "oc" true;
        ExecOcSync "/usr/bin/oc" "version --short=true --client=true"],
       Returned (Some "/usr/bin/oc"), w)
  /\ (startsWith "v" "V4.1.18" = true \/ startsWith "V" "V4.1.18" = true).
Proof.
  intros w. split; [reflexivity|].
  apply (getLocalOcPath_version_needs_v "V4.1.18" "/usr/bin/oc" Sim.sim w w
           [Which "oc" true;
            ExecOcSync "/usr/bin/oc" "version --short=true --client=true"]);
    [reflexivity | discriminate | discriminate].
Defined.

(** X21: When no version is requested, or when [which] fails, [getLocalOcPath]
    makes no other call than [which]: it returns what [which] found, and
    nothing when [which] threw, swallowing the error. *)
Theorem getLocalOcPath_without_check (version : option string) (ag : agent)
    (w w1 : world ag) (r : outcome string) :
  answer ag (Which "oc" true) w = (r, w1) ->
  truthy version = false \/ (exists msg, r = Thrown msg) ->
  run ag (getLocalOcPath version) w
  = ([Which "oc" true],
     Returned (match r with
               | Returned p => Some p
               | Thrown _ => None
               end),
     w1).
Proof.
  intros Hwhich Hcase. unfold getLocalOcPath, mbind, prog_bind. cbn [run bind].
  rewrite Hwhich. destruct Hcase as [Hv | [msg ->]].
  - rewrite Hv. by destruct r.
  - cbn [bind truthy]. by rewrite andb_false_r.
Qed.

Lemma getLocalOcPath_without_check_witness :
  truthy (Some "v4.1.18") = true
  /\ run Sim.sim (getLocalOcPath (Some "v4.1.18")) (Sim.fresh [])
     = ([Which "oc" true], Returned None, Sim.fresh []).
Proof.
  split; [reflexivity|].
  apply (getLocalOcPath_without_check (Some "v4.1.18") Sim.sim (Sim.fresh [])
           (Sim.fresh []) (Thrown "Unable to locate executable file"));
    [reflexivity | right; by eexists].
Defined.

(** ** Publishing the directory of [oc] *)

(** X22: A missing or empty path is refused before any task variable is read
    or written. *)
Theorem addOcToPath_rejects_empty (osType : string) (ag : agent) (w : world ag) :
  run ag (addOcToPath None osType) w
    = ([], Thrown "path cannot be null or empty", w)
  /\ run ag (addOcToPath (Some "") osType) w
    = ([], Thrown "path cannot be null or empty", w).
Proof. split; reflexivity. Qed.

Lemma lastIndexOf_from_absent (c : ascii) (l : list ascii) (i found : Z) :
  c ∉ l -> lastIndexOf_from c l i found = found.
Proof.
  revert i found. induction l as [|a l IH]; intros i found Hc; [reflexivity|].
  apply not_elem_of_cons in Hc as [Hne Hc]. simpl.
  destruct (Ascii.eqb a c) eqn:Ha; [apply Ascii.eqb_eq in Ha; congruence|].
  by apply IH.
Qed.

Lemma lastIndexOf_from_last (c : ascii) (pre name : list ascii) (i found : Z) :
  c ∉ name ->
  lastIndexOf_from c (pre ++ c :: name) i found = (i + Z.of_nat (length pre))%Z.
Proof.
  intros Hc. revert i found. induction pre as [|a pre IH]; intros i found; simpl.
  - rewrite Ascii.eqb_refl, (lastIndexOf_from_absent c name _ _ Hc). lia.
  - rewrite IH. lia.
Qed.

Lemma substr0_lastIndexOf (c : ascii) (dir name : string) :
  c ∉ chars name ->
  substr0 (lastIndexOf c (dir +:+ String c name)) (dir +:+ String c name) = dir.
Proof.
  intros Hc. unfold substr0, lastIndexOf. rewrite chars_app.
  change (chars (String c name)) with (c :: chars name).
  rewrite (lastIndexOf_from_last c (chars dir) (chars name) 0 (-1) Hc).
  rewrite Z.add_0_l, Nat2Z.id, take_app_length. apply str_chars.
Qed.

(** X23: For a path [<dir><separator><name>], where the separator is the
    backslash for Windows_NT and the slash otherwise and does not occur in
    the name, [addOcToPath] reads PATH once and sets it to the directory,
    the PATH delimiter (semicolon for Windows_NT, colon otherwise) and the
    old value. *)
Theorem addOcToPath_prepends_directory (dir name osType : string) (ag : agent)
    (w w1 w2 : world ag) (old : option string) (r : outcome unit) :
  (pathSeparator osType ∉ chars name) ->
  answer ag (GetVariable "PATH") w = (Returned old, w1) ->
  answer ag (SetVariable "PATH" (dir +:+ pathDelimiter osType +:+ template old)) w1
    = (r, w2) ->
  run ag (addOcToPath (Some (dir +:+ String (pathSeparator osType) name)) osType) w
  = ([GetVariable "PATH";
      SetVariable "PATH" (dir +:+ pathDelimiter osType +:+ template old)],
     r, w2).
Proof.
  unfold pathSeparator, pathDelimiter. intros Hsep Hget Hset.
  unfold addOcToPath. rewrite is_empty_false_app.
  destruct (String.eqb osType "Windows_NT");
    rewrite (substr0_lastIndexOf _ dir name Hsep);
    run_answer Hget; run_answer Hset; by destruct r.
Qed.

Lemma addOcToPath_prepends_directory_witness :
  let w := Sim.fresh [] in
  let value := "D:\a\.download;/usr/bin" in
  (pathSeparator "Windows_NT" ∉ chars "oc.exe")
  /\ run Sim.sim (addOcToPath (Some ("D:\a\.download" +:+ String "\" "oc.exe"))
                    "Windows_NT") w
     = ([GetVariable "PATH"; SetVariable "PATH" value],
        Returned tt, (Sim.respond (SetVariable "PATH" value) w).2).
Proof.
  intros w value.
  assert (pathSeparator "Windows_NT" ∉ chars "oc.exe") as Hsep.
  { intros H. repeat (apply elem_of_cons in H as [H|H]; [discriminate|]).
    by apply elem_of_nil in H. }
  split; [exact Hsep|].
  by apply (addOcToPath_prepends_directory "D:\a\.download" "oc.exe" "Windows_NT"
              Sim.sim w w (Sim.respond (SetVariable "PATH" value) w).2
              (Some "/usr/bin") (Returned tt)).
Defined.

(** X24: A path without the separator of the OS has no directory part: PATH is
    set to the delimiter followed by the old value. *)
Theorem addOcToPath_no_separator (ocPath osType : string) (ag : agent)
    (w w1 w2 : world ag) (old : option string) (r : outcome unit) :
  ocPath <> "" ->
  (pathSeparator osType ∉ chars ocPath) ->
  answer ag (GetVariable "PATH") w = (Returned old, w1) ->
  answer ag (SetVariable "PATH" (pathDelimiter osType +:+ template old)) w1
    = (r, w2) ->
  run ag (addOcToPath (Some ocPath) osType) w
  = ([GetVariable "PATH";
      SetVariable "PATH" (pathDelimiter osType +:+ template old)],
     r, w2).
Proof.
  unfold pathSeparator, pathDelimiter. intros Hne Hsep Hget Hset.
  unfold addOcToPath. rewrite (is_empty_false _ Hne).
  destruct (String.eqb osType "Windows_NT");
    unfold substr0, lastIndexOf;
    rewrite (lastIndexOf_from_absent _ _ _ _ Hsep);
    change (str (take (Z.to_nat (-1)) (chars ocPath))) with "";
    run_answer Hget;
    change ("" +:+ ?d +:+ template old) with (d +:+ template old);
    run_answer Hset; by destruct r.
Qed.

Lemma addOcToPath_no_separator_witness :
  let w := Sim.fresh [] in
  "oc" <> ""
  /\ run Sim.sim (addOcToPath (Some "oc") "Linux") w
     = ([GetVariable "PATH"; SetVariable "PATH" ":/usr/bin"],
        Returned tt, (Sim.respond (SetVariable "PATH" ":/usr/bin") w).2).
Proof.
  intros w. split; [discriminate|].
  assert (pathSeparator "Linux" ∉ chars "oc") as Hsep.
  { intros H. repeat (apply elem_of_cons in H as [H|H]; [discriminate|]).
    by apply elem_of_nil in H. }
  by apply (addOcToPath_no_separator "oc" "Linux" Sim.sim w w
              (Sim.respond (SetVariable "PATH" ":/usr/bin") w).2
              (Some "/usr/bin") (Returned tt)).
Defined.
